(** * trade.py: order sizing and dual-venue hedged execution

    A shallow embedding of [src/trade.py].  Numbers are exact rationals
    ([Q]): Python's binary floats are idealised, so every arithmetic fact
    below is a fact about the algorithm, not about IEEE rounding.  The
    two exchange connectors (ccxt) are an oracle that answers each
    request from the history of the run; a run yields the list of
    events it emitted (connector calls with their outcome, printed
    lines) and either a value or the exception that left the function. *)

From Stdlib Require Import QArith Qround Qabs Qminmax ZArith Lia Lqa Ascii String.
From stdpp Require Import gmap strings list.

Set Warnings "-register-all".

Local Open Scope string_scope.
Local Open Scope list_scope.
Local Open Scope Q_scope.

(** ** Python values and exceptions *)

Module Py.

(** The exception classes the program can meet.  [BadRequest] is a
    subclass of ccxt's [ExchangeError]; [NetworkError] is a ccxt error
    outside [ExchangeError]; the others are Python built-ins.  All of
    them derive from [Exception]. *)
Inductive exn_class : Type :=
| BadRequest | ExchangeError | NetworkError
| TypeError | AttributeError | KeyError | ValueError
| IndexError | ZeroDivisionError.

(** [msg] is what [str(e)] returns. *)
Record exn : Type := Exn { cls : exn_class; msg : string }.

Definition is_BadRequest (e : exn) : bool :=
  match cls e with BadRequest => true | _ => false end.

Definition is_ExchangeError (e : exn) : bool :=
  match cls e with BadRequest | ExchangeError => true | _ => false end.

(** A function either returns or raises. *)
Inductive outcome (A : Type) : Type :=
| Returned (a : A)
| Raised (e : exn).
Arguments Returned {A} a.
Arguments Raised {A} e.

#[global] Instance outcome_ret : MRet outcome := fun A a => Returned a.

#[global] Instance outcome_bind : MBind outcome := fun A B k x =>
  match x with
  | Returned a => k a
  | Raised e => Raised e
  end.

(** JSON-like values exchanged with the connector. *)
Inductive pyval : Type :=
| PNone
| PBool (b : bool)
| PNum (q : Q)
| PStr (s : string)
| PList (l : list pyval)
| PDict (kvs : list (string * pyval)).

Fixpoint assoc (k : string) (kvs : list (string * pyval)) : option pyval :=
  match kvs with
  | [] => None
  | (k', v) :: rest => if String.eqb k k' then Some v else assoc k rest
  end.

(** [d[k]] *)
Definition py_index (d : pyval) (k : string) : outcome pyval :=
  match d with
  | PDict kvs =>
      match assoc k kvs with
      | Some v => Returned v
      | None => Raised (Exn KeyError k)
      end
  | _ => Raised (Exn TypeError "object is not subscriptable")
  end.

(** [d.get(k, default)] *)
Definition py_get (d : pyval) (k : string) (default : pyval) : outcome pyval :=
  match d with
  | PDict kvs =>
      match assoc k kvs with
      | Some v => Returned v
      | None => Returned default
      end
  | _ => Raised (Exn AttributeError "object has no attribute 'get'")
  end.

(** Truth value of an object, as [if x:] and [x or y] test it. *)
Definition truthy (v : pyval) : bool :=
  match v with
  | PNone => false
  | PBool b => b
  | PNum q => negb (Qeq_bool q 0)
  | PStr s => negb (String.eqb s "")
  | PList l => match l with [] => false | _ => true end
  | PDict kvs => match kvs with [] => false | _ => true end
  end.

(** [x or y] *)
Definition py_or (x y : pyval) : pyval := if truthy x then x else y.

(** The number an object stands for in arithmetic and comparisons
    with a number ([bool] is a subclass of [int]). *)
Definition as_num (v : pyval) : outcome Q :=
  match v with
  | PNum q => Returned q
  | PBool b => Returned (if b then 1 else 0)
  | _ => Raised (Exn TypeError "unsupported operand type(s)")
  end.

(** [a < b] on numbers *)
Definition Qltb (a b : Q) : bool := negb (Qle_bool b a).

(** [min(a, b)] on numbers: [b] when [b < a], else [a]. *)
Definition qmin (a b : Q) : Q := if Qltb b a then b else a.

(** [min(a, b)] with [a] a number and [b] any object. *)
Definition py_min (a : Q) (b : pyval) : outcome Q :=
  b' ← as_num b; Returned (qmin a b').

(** [v == s] for a string [s] *)
Definition eq_str (v : pyval) (s : string) : bool :=
  match v with
  | PStr s' => String.eqb s' s
  | _ => false
  end.

(** [iter(v)] *)
Definition py_iter (v : pyval) : outcome (list pyval) :=
  match v with
  | PList l => Returned l
  | PDict kvs => Returned (map (fun kv => PStr (fst kv)) kvs)
  | PStr s => Returned (map (fun c => PStr (String c EmptyString)) (String.list_ascii_of_string s))
  | _ => Raised (Exn TypeError "object is not iterable")
  end.

(** [round(x, 2)]: to the nearest multiple of 1/100, ties to even. *)
Definition round_half_even (q : Q) : Z :=
  let f := Qfloor q in
  match Qcompare (q - inject_Z f) (1 # 2) with
  | Lt => f
  | Gt => (f + 1)%Z
  | Eq => if Z.even f then f else (f + 1)%Z
  end.

Definition round2 (q : Q) : Q := inject_Z (round_half_even (q * 100)) / 100.

(** [str.lower()] on ASCII letters *)
Definition lower_ascii (c : Ascii.ascii) : Ascii.ascii :=
  let n := Ascii.nat_of_ascii c in
  if (Nat.leb 65 n && Nat.leb n 90)%bool then Ascii.ascii_of_nat (n + 32) else c.

Fixpoint lower (s : string) : string :=
  match s with
  | EmptyString => EmptyString
  | String c s' => String (lower_ascii c) (lower s')
  end.

(** [needle in hay] *)
Fixpoint contains (needle hay : string) : bool :=
  (String.prefix needle hay ||
   match hay with
   | EmptyString => false
   | String _ hay' => contains needle hay'
   end)%bool.

End Py.
Import Py.

(** ** 4.1 OrderBookSizer and 4.2 StrategyPlanner (lines 66-85) *)

(** One ask level: [(price, amount)]. *)
Definition level : Type := (Q * Q)%type.

(** The part of an order book the program reads: [book['asks']]. *)
Record order_book : Type := OrderBook { asks : list level }.

(** The loop of [calculate_contracts] from a given [total_cost] and
    [contracts]; [cap] is [usdt_amount * (1 + slippage)].  The division
    of the partial fill raises on a zero price. *)
Fixpoint walk_asks (cap : Q) (levels : list level) (total_cost contracts : Q)
  : outcome Q :=
  match levels with
  | [] => Returned contracts
  | (price, amount) :: rest =>
      let cost := price * amount in
      if Qltb cap (total_cost + cost) then
        let remain := cap - total_cost in
        if Qeq_bool price 0 then Raised (Exn ZeroDivisionError "float division by zero")
        else Returned (contracts + remain / price)
      else walk_asks cap rest (total_cost + cost) (contracts + amount)
  end.

Definition default_slippage : Q := 0.001.

Definition calculate_contracts (book : order_book) (usdt_amount slippage : Q)
  : outcome Q :=
  contracts ← walk_asks (usdt_amount * (1 + slippage)) (asks book) 0 0;
  Returned (round2 contracts).

Record plan : Type := Plan { size : Q; entry : Q; sl : Q; tp : Q }.

(** ** The exchange connector and the run monad *)

Inductive venue : Type := Bybit | Binance.

(** The connector operations the program invokes.  [CreateOrder] is
    ccxt's [create_order(symbol, type, side, amount, None, params)]. *)
Inductive request : Type :=
| LoadMarkets (v : venue)
| PositionSideDual (dual : bool)
| FetchFundingRate (v : venue) (symbol : string)
| FetchOrderBook (v : venue) (symbol : string) (limit : Z)
| Market (v : venue) (symbol : string)
| SetLeverage (v : venue) (leverage : Q) (symbol : string)
| CreateMarketBuyOrder (v : venue) (symbol : string) (amount : Q)
| CreateOrder (v : venue) (symbol type side : string) (amount : Q)
              (params : list (string * pyval))
| FetchPositions (v : venue).

(** What a run leaves behind: connector calls with their outcome, and
    printed lines (the f-string template and the interpolated values). *)
Inductive event : Type :=
| Call (rq : request) (res : outcome pyval)
| Print (template : string) (args : list pyval).

(** The venues: they answer a request knowing everything that happened
    before it. *)
Definition oracle : Type := list event -> request -> outcome pyval.

(** A computation reads the oracle and the history, and returns the
    events it adds together with its outcome. *)
Definition M (A : Type) : Type := oracle -> list event -> list event * outcome A.

#[global] Instance M_ret : MRet M := fun A a _ _ => ([], Returned a).

#[global] Instance M_bind : MBind M := fun A B k m o h =>
  match m o h with
  | (e1, Returned a) =>
      match k a o (h ++ e1) with
      | (e2, r) => (e1 ++ e2, r)
      end
  | (e1, Raised x) => (e1, Raised x)
  end.

Definition raise {A} (x : exn) : M A := fun _ _ => ([], Raised x).

Definition lift {A} (r : outcome A) : M A := fun _ _ => ([], r).

Definition call (rq : request) : M pyval := fun o h =>
  let r := o h rq in ([Call rq r], r).

Definition print (template : string) (args : list pyval) : M unit := fun _ _ =>
  ([Print template args], Returned tt).

(** [try: body except ...]: [handler e] is [None] when no [except]
    clause matches [e], which then propagates. *)
Definition try_except {A} (body : M A) (handler : exn -> option (M A)) : M A :=
  fun o h =>
    match body o h with
    | (e1, Returned a) => (e1, Returned a)
    | (e1, Raised x) =>
        match handler x with
        | Some hd =>
            match hd o (h ++ e1) with
            | (e2, r) => (e1 ++ e2, r)
            end
        | None => (e1, Raised x)
        end
    end.

(** ** Session setup (lines 31-51) *)

Definition init_exchanges : M unit :=
  call (LoadMarkets Bybit);;
  call (LoadMarkets Binance);;
  try_except
    (call (PositionSideDual true);;
     print "Binance hedge mode enabled" [])
    (fun e => Some (print "Warning: could not enable hedge mode: {e}" [PStr (msg e)])).

(** ** 4.3 LeverageNegotiator *)

(** Lines 90-93: the primary venue's limit. *)
Definition bybit_effective_leverage (m_by : pyval) (leverage : Q)
  : outcome (pyval * Q) :=
  limits ← py_index m_by "limits";
  lev_limits ← py_get limits "leverage" (PDict []);
  max_by ← py_get lev_limits "max" (PNum leverage);
  lev_by ← py_min leverage max_by;
  Returned (max_by, lev_by).

(** Lines 103-110 without the print: the hedge venue's limit.  The
    comparison [max_bn < binance_lev] is the first use of [max_bn] and
    raises unless it is a number. *)
Definition binance_effective_leverage (m_bn : pyval) (binance_lev : Q)
  : outcome (Q * Q) :=
  limits ← py_get m_bn "limits" (PDict []);
  lev_limits ← py_get limits "leverage" PNone;
  let limit_bn := py_or lev_limits (PDict []) in
  mx ← py_get limit_bn "max" PNone;
  max_bn ← as_num (py_or mx (PNum binance_lev));
  Returned (max_bn, qmin binance_lev max_bn).

(** Lines 90-101. *)
Definition set_bybit_leverage (symbol : string) (bybit_lev : Q) : M Q :=
  let leverage := bybit_lev in
  m_by ← call (Market Bybit symbol);
  '(max_by, lev_by) ← lift (bybit_effective_leverage m_by leverage);
  print "Setting Bybit leverage to {lev_by} (requested {leverage}, max {max_by})"
        [PNum lev_by; PNum leverage; max_by];;
  try_except
    (call (SetLeverage Bybit lev_by symbol);; mret tt)
    (fun e =>
       if is_BadRequest e then Some
         (if contains "leverage not modified" (lower (msg e))
          then print "Bybit leverage already at {lev_by}" [PNum lev_by]
          else raise e)
       else None);;
  mret lev_by.

(** Lines 103-128; returns the final [lev_bn]. *)
Definition set_binance_leverage (symbol : string) (binance_lev : Q) : M Q :=
  m_bn ← call (Market Binance symbol);
  '(max_bn, lev_bn) ← lift (binance_effective_leverage m_bn binance_lev);
  (if Qltb max_bn binance_lev
   then print "Requested Binance leverage {binance_lev} > exchange max {max_bn}, overriding to {max_bn}"
              [PNum binance_lev; PNum max_bn; PNum max_bn]
   else mret tt);;
  print "Setting Binance leverage to {lev_bn} (requested {binance_lev}, max {max_bn})"
        [PNum lev_bn; PNum binance_lev; PNum max_bn];;
  try_except
    (call (SetLeverage Binance lev_bn symbol);; mret lev_bn)
    (fun e =>
       if is_BadRequest e then Some
         (let msg := lower (msg e) in
          if contains "leverage not modified" msg then
            print "Binance leverage already at {lev_bn}" [PNum lev_bn];;
            mret lev_bn
          else if contains "not valid" msg then
            print "Binance leverage {lev_bn} not valid, using max {max_bn}"
                  [PNum lev_bn; PNum max_bn];;
            try_except
              (call (SetLeverage Binance max_bn symbol);; mret max_bn)
              (fun e2 => Some
                 (print "Failed to set Binance max leverage {max_bn}: {e2}"
                        [PNum max_bn; PStr (Py.msg e2)];;
                  mret lev_bn))
          else
            print "Error setting Binance leverage: {e}" [PStr (Py.msg e)];;
            mret lev_bn)
       else Some
         (print "Unexpected error setting Binance leverage: {e}" [PStr (msg e)];;
          mret lev_bn)).

(** ** Execution (lines 87-209) and the command line (lines 211-233) *)

Record result : Type := Result { bybit_entry : pyval; binance_entry : pyval }.

(** [os.environ] *)
Abbreviation environ := (gmap string string).

Section Execution.

(** Python's [float(s)] and [int(s)] on a string; [None] is [ValueError]. *)
Variable float_of_str : string -> option Q.
Variable int_of_str : string -> option Z.

(** [float(v)] *)
Definition py_float (v : pyval) : outcome Q :=
  match v with
  | PStr s =>
      match float_of_str s with
      | Some q => Returned q
      | None => Raised (Exn ValueError "could not convert string to float")
      end
  | _ => as_num v
  end.

(** *** 4.4 HedgeSizeCalculator (lines 131-136) *)

(** Lines 131-134: [float(os.getenv('USDT_AMOUNT', size * entry_price))]
    under a bare [except]. *)
Definition usdt_exec (env : environ) (size entry_price : Q) : Q :=
  match env !! "USDT_AMOUNT" with
  | Some s =>
      match float_of_str s with
      | Some q => q
      | None => size * entry_price
      end
  | None => size * entry_price
  end.

(** Lines 135-136: [(hedge_size, max_qty)]. *)
Definition hedge_sizing (env : environ) (params : plan) (lev_bn : Q)
  : outcome (Q * Q) :=
  let size := size params in
  let entry_price := entry params in
  let usdt_exec := usdt_exec env size entry_price in
  if Qeq_bool entry_price 0
  then Raised (Exn ZeroDivisionError "float division by zero")
  else
    let max_qty := usdt_exec * lev_bn / entry_price in
    Returned (qmin size max_qty, max_qty).

(** *** 4.5 ExecutionOrchestrator *)

(** Lines 139-145. *)
Definition dry_run_report (symbol : string) (params : plan) : M result :=
  let '(size, sl, tp) := (size params, sl params, tp params) in
  print "Dry-run: would OPEN {size} {symbol} long on Bybit and SHORT on Binance"
        [PNum size; PStr symbol];;
  print "Dry-run: ENTRY={params['entry']} SL={sl} TP={tp}"
        [PNum (entry params); PNum sl; PNum tp];;
  print "Dry-run: would SET Bybit SL={sl:.6f}" [PNum sl];;
  print "Dry-run: would SET Bybit TP={tp:.6f}" [PNum tp];;
  print "Dry-run: would SET Binance SL={sl:.6f}" [PNum sl];;
  print "Dry-run: would SET Binance TP={tp:.6f}" [PNum tp];;
  mret (Result PNone PNone).

(** Lines 148-152: the long on the primary venue. *)
Definition primary_request (symbol : string) (size : Q) : request :=
  CreateMarketBuyOrder Bybit symbol size.

Definition open_primary (symbol : string) (size : Q) : M pyval :=
  try_except
    (call (primary_request symbol size))
    (fun e =>
       if is_ExchangeError e then Some
         (print "Bybit buy order failed: {e}" [PStr (msg e)];;
          raise e)
       else None).

(** Line 164: [next((p for p in positions if p.get('symbol') == symbol), None)] *)
Fixpoint find_position (symbol : string) (positions : list pyval)
  : outcome (option pyval) :=
  match positions with
  | [] => Returned None
  | p :: rest =>
      s ← py_get p "symbol" PNone;
      if eq_str s symbol then Returned (Some p) else find_position symbol rest
  end.

(** Line 165 *)
Definition current_contracts (pos : option pyval) : outcome Q :=
  match pos with
  | Some p =>
      if truthy p then
        amt ← py_get p "positionAmt" (PNum 0);
        c ← py_get p "contracts" amt;
        py_float c
      else Returned 0
  | None => Returned 0
  end.

(** Lines 155-158 and 170: the short on the hedge venue. *)
Definition hedge_request (symbol : string) (hedge_size : Q) : request :=
  CreateOrder Binance symbol "market" "sell" hedge_size
              [("positionSide", PStr "SHORT")].

(** Line 168 *)
Definition close_long_request (symbol : string) (current : Q) : request :=
  CreateOrder Binance symbol "market" "sell" current
              [("positionSide", PStr "BOTH")].

(** Lines 162-175: what runs once the short has been rejected. *)
Definition recover_hedge (symbol : string) (hedge_size : Q) : M pyval :=
  try_except
    (positions ← call (FetchPositions Binance);
     ps ← lift (py_iter positions);
     pos ← lift (find_position symbol ps);
     current ← lift (current_contracts pos);
     if Qltb 0 current then
       print "Closing existing long of {current:.2f} contracts" [PNum current];;
       call (close_long_request symbol current);;
       print "Retrying short of {hedge_size:.2f} contracts" [PNum hedge_size];;
       call (hedge_request symbol hedge_size)
     else mret PNone)
    (fun e2 => Some
       (print "Binance hedge retry failed: {e2}" [PStr (msg e2)];;
        mret PNone)).

(** Lines 154-175 *)
Definition open_hedge (symbol : string) (hedge_size : Q) : M pyval :=
  try_except
    (call (hedge_request symbol hedge_size))
    (fun e =>
       if is_ExchangeError e then Some
         (print "Binance sell order failed: {e}" [PStr (msg e)];;
          recover_hedge symbol hedge_size)
       else None).

(** The four protective orders (lines 179-180, 186-187, 195-196, 202-203). *)
Definition bybit_sl_request (symbol : string) (size sl : Q) : request :=
  CreateOrder Bybit symbol "STOP_MARKET" "sell" size
    [("stopPrice", PNum sl); ("triggerDirection", PStr "below");
     ("closePosition", PBool true)].

Definition bybit_tp_request (symbol : string) (size tp : Q) : request :=
  CreateOrder Bybit symbol "TAKE_PROFIT_MARKET" "sell" size
    [("stopPrice", PNum tp); ("triggerDirection", PStr "above");
     ("closePosition", PBool true)].

Definition binance_tp_request (symbol : string) (hedge_size sl : Q) : request :=
  CreateOrder Binance symbol "TAKE_PROFIT_MARKET" "buy" hedge_size
    [("stopPrice", PNum sl); ("positionSide", PStr "SHORT");
     ("closePosition", PBool true)].

Definition binance_sl_request (symbol : string) (hedge_size tp : Q) : request :=
  CreateOrder Binance symbol "STOP_MARKET" "buy" hedge_size
    [("stopPrice", PNum tp); ("positionSide", PStr "SHORT");
     ("closePosition", PBool true)].

(** One [try: create_order(...); print(placed) except Exception as e:
    print(failed)] block. *)
Definition place_bracket (rq : request) (placed failed : string) : M unit :=
  try_except
    (call rq;; print placed [])
    (fun e => Some (print failed [PStr (msg e)])).

(** Lines 176-208 *)
Definition place_brackets (symbol : string) (size hedge_size sl tp : Q)
           (ob2 : pyval) : M unit :=
  print "Setting SL/TP orders..." [];;
  place_bracket (bybit_sl_request symbol size sl)
                "Bybit SL placed" "Bybit SL failed: {e}";;
  place_bracket (bybit_tp_request symbol size tp)
                "Bybit TP placed" "Bybit TP failed: {e}";;
  if truthy ob2 then
    place_bracket (binance_tp_request symbol hedge_size sl)
                  "Binance TP placed" "Binance TP failed: {e}";;
    place_bracket (binance_sl_request symbol hedge_size tp)
                  "Binance SL placed" "Binance SL failed: {e}"
  else
    print "Skipping Binance SL/TP due to no short position" [].

(** Lines 129-209: everything after leverage negotiation. *)
Definition trade (env : environ) (symbol : string) (params : plan)
           (lev_bn : Q) (dry_run : bool) : M result :=
  let '(size, sl, tp) := (size params, sl params, tp params) in
  '(hedge_size, max_qty) ← lift (hedge_sizing env params lev_bn);
  print "Using Binance hedge size {hedge_size:.2f} (target={size}, max={max_qty:.2f})"
        [PNum hedge_size; PNum size; PNum max_qty];;
  if dry_run then dry_run_report symbol params
  else
    print "Opening {size} contracts of {symbol} long on Bybit and short on Binance..."
          [PNum size; PStr symbol];;
    ob1 ← open_primary symbol size;
    ob2 ← open_hedge symbol hedge_size;
    place_brackets symbol size hedge_size sl tp ob2;;
    mret (Result ob1 ob2).

(** Lines 88-128: session setup and leverage on both venues; returns
    the hedge venue's [lev_bn]. *)
Definition negotiate_leverage (symbol : string) (bybit_lev binance_lev : Q)
  : M Q :=
  init_exchanges;;
  set_bybit_leverage symbol bybit_lev;;
  set_binance_leverage symbol binance_lev.

Definition execute (env : environ) (symbol : string) (params : plan)
           (bybit_lev binance_lev : Q) (dry_run : bool) : M result :=
  lev_bn ← negotiate_leverage symbol bybit_lev binance_lev;
  trade env symbol params lev_bn dry_run.

(** *** Market data and the command line *)

Record venue_data : Type := VenueData { funding : pyval; book : pyval }.
Record market_data : Type := MarketData { bybit : venue_data; binance : venue_data }.

(** Lines 53-64 *)
Definition analysis (symbol : string) : M market_data :=
  init_exchanges;;
  f_by ← call (FetchFundingRate Bybit symbol);
  b_by ← call (FetchOrderBook Bybit symbol 20);
  f_bn ← call (FetchFundingRate Binance symbol);
  b_bn ← call (FetchOrderBook Binance symbol 20);
  mret (MarketData (VenueData f_by b_by) (VenueData f_bn b_bn)).

(** [for price, amount in book['asks']]: each level unpacks into two
    numbers. *)
Definition unpack_level (lv : pyval) : outcome level :=
  items ← py_iter lv;
  match items with
  | [p; a] =>
      price ← as_num p;
      amount ← as_num a;
      Returned (price, amount)
  | _ => Raised (Exn ValueError "wrong number of values to unpack")
  end.

Fixpoint unpack_levels (lvs : list pyval) : outcome (list level) :=
  match lvs with
  | [] => Returned []
  | lv :: rest =>
      l ← unpack_level lv;
      ls ← unpack_levels rest;
      Returned (l :: ls)
  end.

Definition order_book_of (book : pyval) : outcome order_book :=
  a ← py_index book "asks";
  lvs ← py_iter a;
  ls ← unpack_levels lvs;
  Returned (OrderBook ls).

(** Lines 79-85 *)
Definition plan_strategy (data : market_data) (usdt_amount : Q) : outcome plan :=
  bk ← order_book_of (book (bybit data));
  size ← calculate_contracts bk usdt_amount default_slippage;
  match asks bk with
  | [] => Raised (Exn IndexError "list index out of range")
  | (entry, _) :: _ =>
      Returned (Plan size entry (entry * 0.99) (entry * 1.01))
  end.

(** The command line after [argparse] has split and converted it:
    [None] is a flag that was not given. *)
Record cli : Type := Cli {
  cli_symbol : option string;
  cli_usdt_amount : option Q;
  cli_bybit_leverage : option Z;
  cli_binance_leverage : option Z;
  cli_dry_run : bool }.

Record args : Type := Args {
  arg_symbol : string;
  arg_usdt_amount : Q;
  arg_bybit_leverage : Z;
  arg_binance_leverage : Z;
  arg_dry_run : bool }.

Definition getenv (env : environ) (name default : string) : string :=
  match env !! name with
  | Some s => s
  | None => default
  end.

Definition env_float (env : environ) (name default : string) : outcome Q :=
  match float_of_str (getenv env name default) with
  | Some q => Returned q
  | None => Raised (Exn ValueError "could not convert string to float")
  end.

Definition env_int (env : environ) (name default : string) : outcome Z :=
  match int_of_str (getenv env name default) with
  | Some z => Returned z
  | None => Raised (Exn ValueError "invalid literal for int()")
  end.

(** Lines 211-223: the defaults are read from the environment while the
    parser is built, whether or not the flag is given. *)
Definition parse_args (argv : cli) (env : environ) : outcome args :=
  let d_symbol := getenv env "SYMBOL" "ALPACA/USDT:USDT" in
  d_usdt ← env_float env "USDT_AMOUNT" "1000";
  d_by ← env_int env "BYBIT_LEVERAGE" "20";
  d_bn ← env_int env "BINANCE_LEVERAGE" "20";
  Returned (Args (default d_symbol (cli_symbol argv))
                 (default d_usdt (cli_usdt_amount argv))
                 (default d_by (cli_bybit_leverage argv))
                 (default d_bn (cli_binance_leverage argv))
                 (cli_dry_run argv)).

(** Lines 225-233 *)
Definition main (argv : cli) (env : environ) : M unit :=
  a ← lift (parse_args argv env);
  let symbol := arg_symbol a in
  let usdt_amount := arg_usdt_amount a in
  data ← analysis symbol;
  plan ← lift (plan_strategy data usdt_amount);
  print "Strategy Plan: {plan}"
        [PNum (size plan); PNum (entry plan); PNum (sl plan); PNum (tp plan)];;
  result ← execute env symbol plan (inject_Z (arg_bybit_leverage a))
                   (inject_Z (arg_binance_leverage a)) (arg_dry_run a);
  print "Execution Result:\n {result}" [bybit_entry result; binance_entry result].

End Execution.

(** ** Notions the properties are stated with *)

(** Cumulative notional cost and depth of a run of levels. *)
Fixpoint total_cost (levels : list level) : Q :=
  match levels with
  | [] => 0
  | (price, amount) :: rest => price * amount + total_cost rest
  end.

Fixpoint total_amount (levels : list level) : Q :=
  match levels with
  | [] => 0
  | (_, amount) :: rest => amount + total_amount rest
  end.




(** Every event a computation can emit satisfies [P]. *)
Definition emits {A} (P : event -> Prop) (m : M A) : Prop :=
  forall o h, Forall P (fst (m o h)).

(** Order placement and position queries: what a dry run must not do. *)
Definition is_order (ev : event) : bool :=
  match ev with
  | Call (CreateMarketBuyOrder _ _ _) _ => true
  | Call (CreateOrder _ _ _ _ _ _) _ => true
  | Call (FetchPositions _) _ => true
  | _ => false
  end.

Definition is_set_leverage (ev : event) : bool :=
  match ev with
  | Call (SetLeverage _ _ _) _ => true
  | _ => false
  end.

(** A [set_leverage] call on the hedge venue. *)
Definition is_binance_leverage (ev : event) : bool :=
  match ev with
  | Call (SetLeverage Binance _ _) _ => true
  | _ => false
  end.

(** The primary market buy. *)
Definition is_primary (ev : event) : bool :=
  match ev with
  | Call (CreateMarketBuyOrder _ _ _) _ => true
  | _ => false
  end.

(** An attempt at the short market order on the hedge venue. *)
Definition position_side (rq : request) : pyval :=
  match rq with
  | CreateOrder _ _ _ _ _ params => default PNone (assoc "positionSide" params)
  | _ => PNone
  end.

Definition is_short_sell (rq : request) : bool :=
  match rq with
  | CreateOrder Binance _ type side _ _ =>
      (String.eqb type "market" && String.eqb side "sell"
       && eq_str (position_side rq) "SHORT")%bool
  | _ => false
  end.






(** The two events of one bracket placement whose connector call
    answered [r]. *)
Definition bracket_events (rq : request) (placed failed : string)
           (r : outcome pyval) : list event :=
  [Call rq r;
   match r with
   | Returned _ => Print placed []
   | Raised e => Print failed [PStr (msg e)]
   end].

(** The five ways the hedge recovery can go, given the answer [rp] to
    the position query: the events that follow the query and the hedge
    order reference they leave. *)
Section Recovery.

Variable float_of_str : string -> option Q.
Variables (symbol : string) (hedge_size : Q).

(** The exposure the program reads from the answer to the query. *)
Definition exposure (rp : outcome pyval) : outcome Q :=
  positions ← rp;
  ps ← py_iter positions;
  pos ← find_position symbol ps;
  current_contracts float_of_str pos.


End Recovery.

(** Event predicates as propositions, for [emits]. *)
Definition no_order (ev : event) : Prop := is_order ev = false.

Definition not_primary (ev : event) : Prop := is_primary ev = false.

Definition not_binance_leverage (ev : event) : Prop := is_binance_leverage ev = false.

(** An event that is a short market order on the hedge venue is one for
    the amount [hs]. *)
Definition short_for (hs : Q) (ev : event) : Prop :=
  forall symbol amt r, ev = Call (hedge_request symbol amt) r -> amt = hs.

(** The first element of a list that satisfies [P], with what precedes
    and what follows it. *)
Fixpoint split_first {A} (P : A -> bool) (l : list A)
  : option (list A * A * list A) :=
  match l with
  | [] => None
  | a :: l' =>
      if P a then Some ([], a, l')
      else
        match split_first P l' with
        | Some (pre, x, post) => Some (a :: pre, x, post)
        | None => None
        end
  end.

(** What can follow a rejection [e] of the hedge venue's first
    [set_leverage(lev_bn)]: the events after the rejected call and the
    outcome of the negotiation. *)
Inductive leverage_fallback (symbol : string) (max_bn lev_bn : Q) (e : exn)
  : list event -> outcome Q -> Prop :=
| already_set :
    is_BadRequest e = true ->
    contains "leverage not modified" (lower (msg e)) = true ->
    leverage_fallback symbol max_bn lev_bn e
      [Print "Binance leverage already at {lev_bn}" [PNum lev_bn]]
      (Returned lev_bn)
| retried_at_max r2 :
    is_BadRequest e = true ->
    contains "leverage not modified" (lower (msg e)) = false ->
    contains "not valid" (lower (msg e)) = true ->
    leverage_fallback symbol max_bn lev_bn e
      (Print "Binance leverage {lev_bn} not valid, using max {max_bn}"
             [PNum lev_bn; PNum max_bn]
         :: Call (SetLeverage Binance max_bn symbol) r2
         :: match r2 with
            | Returned _ => []
            | Raised e2 =>
                [Print "Failed to set Binance max leverage {max_bn}: {e2}"
                       [PNum max_bn; PStr (msg e2)]]
            end)
      (Returned match r2 with Returned _ => max_bn | Raised _ => lev_bn end)
| other_bad_request :
    is_BadRequest e = true ->
    contains "leverage not modified" (lower (msg e)) = false ->
    contains "not valid" (lower (msg e)) = false ->
    leverage_fallback symbol max_bn lev_bn e
      [Print "Error setting Binance leverage: {e}" [PStr (msg e)]]
      (Returned lev_bn)
| other_exception :
    is_BadRequest e = false ->
    leverage_fallback symbol max_bn lev_bn e
      [Print "Unexpected error setting Binance leverage: {e}" [PStr (msg e)]]
      (Returned lev_bn).

(** An ask book as a venue publishes it: positive prices, non-negative
    amounts. *)
Definition well_formed (levels : list level) : Prop :=
  Forall (fun lv => 0 < fst lv /\ 0 <= snd lv) levels.

(** The connector's representation of a level and of an order book with
    the given asks (and any other keys). *)
Definition level_value (lv : level) : pyval := PList [PNum (fst lv); PNum (snd lv)].

Definition holds_asks (book : pyval) (levels : list level) : Prop :=
  exists kvs, book = PDict kvs /\
              assoc "asks" kvs = Some (PList (map level_value levels)).

(** A connector call of any kind, and one that changes the account. *)
Definition is_call (ev : event) : bool :=
  match ev with
  | Call _ _ => true
  | Print _ _ => false
  end.

Definition is_mutation (ev : event) : bool :=
  match ev with
  | Call (SetLeverage _ _ _) _ => true
  | Call (CreateMarketBuyOrder _ _ _) _ => true
  | Call (CreateOrder _ _ _ _ _ _) _ => true
  | Call (PositionSideDual _) _ => true
  | _ => false
  end.

(** A position entry that is a dict whose symbol is not [symbol]. *)
Definition other_position (symbol : string) (p : pyval) : Prop :=
  exists kvs, p = PDict kvs /\
              eq_str (default PNone (assoc "symbol" kvs)) symbol = false.

(** An order or position query other than the primary market buy: the
    hedge leg, its recovery, a bracket. *)
Definition is_later_order (ev : event) : bool :=
  (is_order ev && negb (is_primary ev))%bool.

(** An order on the hedge venue's short side (the short itself or one of
    its brackets) is for an amount of at most [bound]. *)
Definition short_side_within (bound : Q) (ev : event) : Prop :=
  forall symbol type side amt params r,
    ev = Call (CreateOrder Binance symbol type side amt params) r ->
    assoc "positionSide" params = Some (PStr "SHORT") ->
    amt <= bound.

(** ** Concrete venues, environments and parsers for the examples *)

Module Examples.

(** [float] and [int] on plain decimal literals: an optional sign,
    digits, and for [float] an optional fraction. *)
Definition digit_of (c : Ascii.ascii) : option Z :=
  let n := Ascii.nat_of_ascii c in
  if (Nat.leb 48 n && Nat.leb n 57)%bool then Some (Z.of_nat (n - 48)) else None.

Fixpoint digits (s : string) (acc : Z) : option (Z * string) :=
  match s with
  | EmptyString => Some (acc, EmptyString)
  | String c rest =>
      match digit_of c with
      | Some d => digits rest (10 * acc + d)%Z
      | None => Some (acc, s)
      end
  end.

Definition unsigned_decimal (s : string) : option Q :=
  match s with
  | EmptyString => None
  | String c _ =>
      match digit_of c, digits s 0 with
      | Some _, Some (n, EmptyString) => Some (inject_Z n)
      | Some _, Some (n, String "."%char frac) =>
          match digits frac 0 with
          | Some (f, EmptyString) =>
              Some (inject_Z n + inject_Z f / inject_Z (10 ^ Z.of_nat (String.length frac)))
          | _ => None
          end
      | _, _ => None
      end
  end.

Definition float_of_str (s : string) : option Q :=
  match s with
  | String "-"%char rest => q ← unsigned_decimal rest; Some (- q)
  | String "+"%char rest => unsigned_decimal rest
  | _ => unsigned_decimal s
  end.

Definition int_of_str (s : string) : option Z :=
  match float_of_str s with
  | Some q => if contains "." s then None else Some (Qfloor q)
  | None => None
  end.

(** Connector answers. *)
Definition market_info (max : pyval) : pyval :=
  PDict [("symbol", PStr "ALPACA/USDT:USDT");
         ("limits", PDict [("leverage", PDict [("min", PNum 1); ("max", max)])])].

Definition order_info (id : string) : pyval := PDict [("id", PStr id)].

Definition book_info : pyval :=
  PDict [("asks", PList [PList [PNum 100; PNum 5]; PList [PNum 101; PNum 10]]);
         ("bids", PList [PList [PNum 99; PNum 7]])].

(** Venues on which every request succeeds; both cap leverage at 25. *)
Definition calm : oracle := fun _ rq =>
  match rq with
  | Market _ _ => Returned (market_info (PNum 25))
  | FetchOrderBook _ _ _ => Returned book_info
  | FetchPositions _ => Returned (PList [])
  | CreateMarketBuyOrder _ _ _ => Returned (order_info "long-1")
  | CreateOrder _ _ _ _ _ _ => Returned (order_info "order-1")
  | _ => Returned PNone
  end.

(** [base], except that requests selected by [sel] get the answer [res]. *)
Definition answering (sel : list event -> request -> bool) (res : outcome pyval)
           (base : oracle) : oracle :=
  fun h rq => if sel h rq then res else base h rq.

Definition sel_set_leverage (v : venue) : list event -> request -> bool :=
  fun _ rq =>
    match rq, v with
    | SetLeverage Bybit _ _, Bybit => true
    | SetLeverage Binance _ _, Binance => true
    | _, _ => false
    end.

Definition sel_market (v : venue) : list event -> request -> bool :=
  fun _ rq =>
    match rq, v with
    | Market Bybit _, Bybit => true
    | Market Binance _, Binance => true
    | _, _ => false
    end.

(** The first [set_leverage] on the hedge venue only. *)
Definition sel_first_binance_leverage : list event -> request -> bool :=
  fun h rq =>
    (is_binance_leverage (Call rq (Returned PNone))
     && negb (existsb is_binance_leverage h))%bool.

Definition sel_primary : list event -> request -> bool :=
  fun _ rq => match rq with CreateMarketBuyOrder _ _ _ => true | _ => false end.

(** The short market order: every attempt, or only the first one. *)
Definition sel_hedge : list event -> request -> bool :=
  fun _ rq => is_short_sell rq.





Definition symbol : string := "ALPACA/USDT:USDT".

Definition a_plan : plan := Plan 9.96 100 99 101.

Definition no_env : environ := ∅.

End Examples.

(** * Properties *)

(** ** Rational arithmetic of the embedding *)

Lemma Qltb_true (a b : Q) : Qltb a b = true <-> a < b.
Proof.
  unfold Qltb. rewrite negb_true_iff. split.
  - intros H. apply Qnot_le_lt. intros Hle.
    apply Qle_bool_iff in Hle. congruence.
  - intros H. destruct (Qle_bool b a) eqn:E; [|reflexivity].
    apply Qle_bool_iff in E. exfalso. apply (Qlt_not_le _ _ H E).
Qed.

Lemma Qltb_false (a b : Q) : Qltb a b = false <-> b <= a.
Proof.
  unfold Qltb. rewrite negb_false_iff. apply Qle_bool_iff.
Qed.


Lemma Qeq_bool_false (a b : Q) : ~ a == b -> Qeq_bool a b = false.
Proof.
  intros H. destruct (Qeq_bool a b) eqn:E; [|reflexivity].
  apply Qeq_bool_iff in E. contradiction.
Qed.

Lemma qmin_Qmin (a b : Q) : qmin a b == Qmin a b.
Proof.
  unfold qmin. destruct (Qltb b a) eqn:E.
  - apply Qltb_true in E. symmetry. apply Q.min_r. lra.
  - apply Qltb_false in E. symmetry. apply Q.min_l. exact E.
Qed.


Lemma div_100 (x : Q) : x / 100 == x * (1 # 100).
Proof. unfold Qdiv. reflexivity. Qed.


(** ** 4.1 OrderBookSizer *)










(** ** Reasoning about runs *)

Lemma bind_run {A B} (m : M A) (k : A -> M B) (o : oracle) (h : list event) :
  (m ≫= k) o h =
  match m o h with
  | (e1, Returned a) =>
      match k a o (h ++ e1) with
      | (e2, r) => (e1 ++ e2, r)
      end
  | (e1, Raised x) => (e1, Raised x)
  end.
Proof. reflexivity. Qed.

Lemma bind_returned {A B} (m : M A) (k : A -> M B) o h e1 a :
  m o h = (e1, Returned a) ->
  (m ≫= k) o h = (e1 ++ fst (k a o (h ++ e1)), snd (k a o (h ++ e1))).
Proof. intros H. rewrite bind_run, H. destruct (k a o (h ++ e1)); reflexivity. Qed.

Section Emits.

Context {A : Type} (P : event -> Prop).

Lemma emits_ret (a : A) : emits P (mret a).
Proof. intros o h. constructor. Qed.

Lemma emits_raise (x : exn) : emits P (@raise A x).
Proof. intros o h. constructor. Qed.

Lemma emits_lift (r : outcome A) : emits P (lift r).
Proof. intros o h. constructor. Qed.

Lemma emits_bind {B} (m : M B) (k : B -> M A) :
  emits P m -> (forall b, emits P (k b)) -> emits P (m ≫= k).
Proof.
  intros Hm Hk o h. rewrite bind_run. specialize (Hm o h).
  destruct (m o h) as [e1 [b|x]]; simpl in *; [|assumption].
  specialize (Hk b o (h ++ e1)).
  destruct (k b o (h ++ e1)) as [e2 r]; simpl in *.
  apply Forall_app. split; assumption.
Qed.

Lemma emits_try (body : M A) (handler : exn -> option (M A)) :
  emits P body ->
  (forall e, match handler e with Some hd => emits P hd | None => True end) ->
  emits P (try_except body handler).
Proof.
  intros Hb Hh o h. unfold try_except. specialize (Hb o h).
  destruct (body o h) as [e1 [a|x]]; simpl in *; [assumption|].
  specialize (Hh x). destruct (handler x) as [hd|]; simpl; [|assumption].
  specialize (Hh o (h ++ e1)).
  destruct (hd o (h ++ e1)) as [e2 r]; simpl in *.
  apply Forall_app. split; assumption.
Qed.

End Emits.

Lemma emits_print (P : event -> Prop) template args :
  P (Print template args) -> emits P (print template args).
Proof. intros H o h. repeat constructor. exact H. Qed.

Lemma emits_call (P : event -> Prop) rq :
  (forall r, P (Call rq r)) -> emits P (call rq).
Proof. intros H o h. repeat constructor. apply H. Qed.

(** Walks a computation built from the combinators, leaving one goal
    per printed line and per connector call. *)
Ltac emits_walk :=
  repeat first
    [ apply emits_ret
    | apply emits_raise
    | apply emits_lift
    | apply emits_print
    | apply emits_call; intros ?
    | apply emits_bind; [|intros ?]
    | apply emits_try; [|intros ?; cbv beta]
    | exact I
    | match goal with
      | |- emits _ (if ?b then _ else _) => destruct b
      | |- emits _ (match ?x with _ => _ end) => destruct x
      | |- match (if ?b then _ else _) with _ => _ end => destruct b
      | |- emits _ (let (_, _) := ?x in _) => destruct x
      end ].

(** *** What each phase can emit *)

Lemma init_exchanges_no_order : emits no_order init_exchanges.
Proof. unfold init_exchanges. emits_walk; reflexivity. Qed.

Lemma set_bybit_leverage_no_order symbol lev :
  emits no_order (set_bybit_leverage symbol lev).
Proof. unfold set_bybit_leverage. emits_walk; reflexivity. Qed.

Lemma set_binance_leverage_no_order symbol lev :
  emits no_order (set_binance_leverage symbol lev).
Proof. unfold set_binance_leverage. emits_walk; reflexivity. Qed.

Lemma negotiate_leverage_no_order symbol bl nl :
  emits no_order (negotiate_leverage symbol bl nl).
Proof.
  unfold negotiate_leverage.
  apply emits_bind; [apply init_exchanges_no_order|intros _].
  apply emits_bind; [apply set_bybit_leverage_no_order|intros _].
  apply set_binance_leverage_no_order.
Qed.

Lemma dry_run_report_no_order symbol params :
  emits no_order (dry_run_report symbol params).
Proof. unfold dry_run_report. simpl. emits_walk; reflexivity. Qed.

(** Breaks a run into the cases of its connector answers and tests. *)
Ltac run_cases :=
  repeat
    (simpl in *; simplify_eq;
     match goal with
     | H : context [match ?x with _ => _ end] |- _ => destruct x eqn:?
     | H : context [if ?x then _ else _] |- _ => destruct x eqn:?
     end);
  repeat (progress (simpl in *; simplify_eq)).

(** A leverage negotiation on the hedge venue that returns has called
    [set_leverage] there. *)
Lemma set_binance_leverage_returned symbol nl o h e lev :
  set_binance_leverage symbol nl o h = (e, Returned lev) ->
  exists l r, In (Call (SetLeverage Binance l symbol) r) e.
Proof.
  unfold set_binance_leverage, mbind, M_bind, mret, M_ret, call, lift, print,
    try_except, raise.
  intros H. run_cases; eexists _, _;
    repeat (rewrite in_app_iff || simpl); eauto 15.
Qed.

(** ** Dry run *)

Lemma trade_dry_run_no_order fs env symbol params lev :
  emits no_order (trade fs env symbol params lev true).
Proof.
  unfold trade. simpl.
  apply emits_bind; [apply emits_lift|intros [hs mq]].
  apply emits_bind; [apply emits_print; reflexivity|intros _].
  apply dry_run_report_no_order.
Qed.

Lemma trade_dry_run_outcome fs env symbol params lev o h :
  snd (trade fs env symbol params lev true o h) =
  match hedge_sizing fs env params lev with
  | Returned _ => Returned (Result PNone PNone)
  | Raised x => Raised x
  end.
Proof.
  unfold trade. simpl. rewrite bind_run. unfold lift.
  destruct (hedge_sizing fs env params lev) as [[hs mq]|x]; reflexivity.
Qed.

Lemma hedge_sizing_returns fs env params lev :
  ~ entry params == 0 ->
  hedge_sizing fs env params lev =
  Returned (qmin (size params)
                 (usdt_exec fs env (size params) (entry params) * lev / entry params),
            usdt_exec fs env (size params) (entry params) * lev / entry params).
Proof.
  intros H. unfold hedge_sizing. rewrite Qeq_bool_false by exact H. reflexivity.
Qed.

(** C1, amended: a dry run places no order, no bracket and queries no
    position, and a result it returns has both order references null;
    it does set the leverage on the venues before the dry-run check, so
    whenever the negotiation completes (and the entry price is not zero)
    the result is returned after a [set_leverage] call on the hedge
    venue. *)
Theorem C1_dry_run_places_no_order fs env symbol params bl nl o h :
  let run := execute fs env symbol params bl nl true o h in
  Forall no_order (fst run) /\
  (snd run = Returned (Result PNone PNone) \/ exists e, snd run = Raised e) /\
  (forall e1 lev,
      negotiate_leverage symbol bl nl o h = (e1, Returned lev) ->
      ~ entry params == 0 ->
      snd run = Returned (Result PNone PNone) /\
      exists l r, In (Call (SetLeverage Binance l symbol) r) (fst run)).
Proof.
  intros run. subst run. unfold execute. split; [|split].
  - apply emits_bind; [apply negotiate_leverage_no_order|intros lev].
    apply trade_dry_run_no_order.
  - rewrite bind_run.
    destruct (negotiate_leverage symbol bl nl o h) as [e1 [lev|x]];
      [|right; eauto].
    pose proof (trade_dry_run_outcome fs env symbol params lev o (h ++ e1)) as Hd.
    destruct (trade fs env symbol params lev true o (h ++ e1)) as [e2 r].
    simpl in *. subst r.
    destruct (hedge_sizing fs env params lev); [left|right]; eauto.
  - intros e1 lev Hneg Hentry.
    rewrite (bind_returned _ _ _ _ _ _ Hneg). simpl.
    rewrite trade_dry_run_outcome, hedge_sizing_returns by exact Hentry.
    split; [reflexivity|].
    unfold negotiate_leverage in Hneg.
    rewrite bind_run in Hneg.
    destruct (init_exchanges o h) as [ei [[]|x]]; [|discriminate].
    rewrite bind_run in Hneg.
    destruct (set_bybit_leverage symbol bl o (h ++ ei)) as [eb [lb|x]];
      [|discriminate].
    destruct (set_binance_leverage symbol nl o ((h ++ ei) ++ eb))
      as [en rn] eqn:Hbn.
    simplify_eq.
    destruct (set_binance_leverage_returned _ _ _ _ _ _ Hbn) as (l & r & Hin).
    exists l, r. rewrite !in_app_iff. auto.
Qed.

Lemma C1_witness :
  snd (execute Examples.float_of_str Examples.no_env Examples.symbol Examples.a_plan 20 20 true Examples.calm [])
  = Returned (Result PNone PNone) /\
  exists l r,
    In (Call (SetLeverage Binance l Examples.symbol) r)
       (fst (execute Examples.float_of_str Examples.no_env Examples.symbol Examples.a_plan 20 20 true Examples.calm [])).
Proof.
  eapply (proj2 (proj2 (C1_dry_run_places_no_order
                          Examples.float_of_str Examples.no_env Examples.symbol Examples.a_plan 20 20 Examples.calm []))).
  - vm_compute. reflexivity.
  - vm_compute. discriminate.
Defined.

(** C1 as stated fails: on venues where every request succeeds, a dry
    run calls [set_leverage] on both venues (and returns two null
    references). *)
Lemma C1_counterexample :
  let run := execute Examples.float_of_str Examples.no_env Examples.symbol Examples.a_plan 20 20 true Examples.calm [] in
  In (Call (SetLeverage Bybit 20 Examples.symbol) (Returned PNone)) (fst run) /\
  In (Call (SetLeverage Binance 20 Examples.symbol) (Returned PNone)) (fst run) /\
  snd run = Returned (Result PNone PNone).
Proof.
  vm_compute. repeat split; auto 20.
Qed.

(** ** Primary leg *)

Lemma Forall_In {A} (P : A -> Prop) (l : list A) (x : A) :
  Forall P l -> In x l -> P x.
Proof. intros H. apply (proj1 (List.Forall_forall P l) H). Qed.

Lemma no_order_not_primary ev : no_order ev -> not_primary ev.
Proof. destruct ev as [[] ?|]; simpl; unfold no_order, not_primary; simpl; congruence. Qed.

Lemma open_hedge_not_primary fs symbol hs :
  emits not_primary (open_hedge fs symbol hs).
Proof. unfold open_hedge, recover_hedge. emits_walk; reflexivity. Qed.

Lemma place_brackets_not_primary symbol size hs sl tp ob2 :
  emits not_primary (place_brackets symbol size hs sl tp ob2).
Proof. unfold place_brackets, place_bracket. emits_walk; reflexivity. Qed.

(** Splits a membership in a trace into its cases. *)
Ltac split_in Hin :=
  repeat (rewrite in_app_iff in Hin || simpl in Hin);
  repeat match type of Hin with _ \/ _ => destruct Hin as [Hin|Hin] end.

(** Closes the cases in which the event cannot be where [Hin] has it. *)
Ltac absurd_in Hin :=
  first
    [ discriminate Hin
    | contradiction
    | match type of Hin with
      | In _ ?l =>
          match goal with
          | H : Forall _ l |- _ => apply (Forall_In _ _ _ H) in Hin; discriminate Hin
          end
      end ].

(** C7: when the market buy on the primary venue is rejected, the run
    ends with that error; nothing was ordered before it, and after it
    the run only prints the failure (for an [ExchangeError]) - no hedge
    order, no position query, no bracket. *)
Theorem C7_primary_rejection_aborts fs env symbol params bl nl o h e :
  let run := execute fs env symbol params bl nl false o h in
  In (Call (primary_request symbol (size params)) (Raised e)) (fst run) ->
  snd run = Raised e /\
  exists pre,
    Forall no_order pre /\
    fst run = pre ++ Call (primary_request symbol (size params)) (Raised e)
                  :: (if is_ExchangeError e
                      then [Print "Bybit buy order failed: {e}" [PStr (msg e)]]
                      else []).
Proof.
  intros run. subst run.
  destruct (execute fs env symbol params bl nl false o h) as [tr r] eqn:Hrun.
  simpl. unfold execute in Hrun. rewrite bind_run in Hrun.
  pose proof (negotiate_leverage_no_order symbol bl nl o h) as Hneg.
  destruct (negotiate_leverage symbol bl nl o h) as [e1 [lev|x]]; simpl in Hneg.
  2:{ simplify_eq. intros Hin. exfalso. absurd_in Hin. }
  unfold trade in Hrun. simpl in Hrun. rewrite bind_run in Hrun. unfold lift in Hrun.
  destruct (hedge_sizing fs env params lev) as [[hs mq]|x].
  2:{ simplify_eq. intros Hin. exfalso. split_in Hin; absurd_in Hin. }
  rewrite bind_run in Hrun. simpl in Hrun.
  rewrite bind_run in Hrun. simpl in Hrun.
  rewrite bind_run in Hrun.
  unfold open_primary, try_except, call in Hrun.
  match type of Hrun with context [o ?hist (primary_request symbol (size params))] =>
    set (hp := hist) in *; destruct (o hp (primary_request symbol (size params)))
      as [ob1|e'] eqn:Ho end.
  - (* accepted: no later event is a primary order *)
    rewrite bind_run in Hrun.
    pose proof (open_hedge_not_primary fs symbol hs o
                  (hp ++ [Call (primary_request symbol (size params)) (Returned ob1)]))
      as Hh.
    destruct (open_hedge fs symbol hs o _) as [eh [ob2|x]].
    + rewrite bind_run in Hrun.
      pose proof (place_brackets_not_primary symbol (size params) hs (sl params)
                    (tp params) ob2 o
                    ((hp ++ [Call (primary_request symbol (size params)) (Returned ob1)])
                       ++ eh)) as Hb.
      destruct (place_brackets _ _ _ _ _ _ o _) as [eb [[]|x]];
        simpl in *; simplify_eq; intros Hin; exfalso; split_in Hin; absurd_in Hin.
    + simpl in *. simplify_eq. intros Hin. exfalso. split_in Hin; absurd_in Hin.
  - (* rejected *)
    destruct (is_ExchangeError e') eqn:Hx; simpl in Hrun; simplify_eq; intros Hin;
      split_in Hin; try absurd_in Hin;
      simplify_eq; rewrite Hx;
      (split; [reflexivity|]);
      match goal with
      | |- exists pre, _ /\ ?l ++ ?p1 :: ?p2 :: _ = _ => exists (l ++ [p1; p2])
      end;
      (split; [|rewrite <- app_assoc; reflexivity]);
      (apply Forall_app; split; [exact Hneg|]);
      repeat constructor.
Qed.

Lemma C7_witness :
  let o := Examples.answering Examples.sel_primary
             (Raised (Exn ExchangeError "insufficient balance")) Examples.calm in
  let run := execute Examples.float_of_str Examples.no_env Examples.symbol
                     Examples.a_plan 20 20 false o [] in
  snd run = Raised (Exn ExchangeError "insufficient balance") /\
  exists pre,
    Forall no_order pre /\
    fst run = pre ++ [Call (primary_request Examples.symbol (size Examples.a_plan))
                           (Raised (Exn ExchangeError "insufficient balance"));
                      Print "Bybit buy order failed: {e}" [PStr "insufficient balance"]].
Proof.
  intros o run.
  apply (C7_primary_rejection_aborts Examples.float_of_str Examples.no_env
           Examples.symbol Examples.a_plan 20 20 o []
           (Exn ExchangeError "insufficient balance")).
  vm_compute. repeat (first [left; reflexivity | right]).
Defined.

(** ** Brackets *)

Lemma place_bracket_run rq placed failed o h :
  place_bracket rq placed failed o h
  = (bracket_events rq placed failed (o h rq), Returned tt).
Proof.
  unfold place_bracket, try_except. rewrite bind_run. unfold call, print.
  destruct (o h rq); reflexivity.
Qed.

(** The bracket phase never raises; it attempts the two primary-venue
    brackets whatever their answers, and the two hedge-venue brackets
    exactly when the hedge order reference is truthy. *)
Lemma place_brackets_run symbol size hs sl tp ob2 o h :
  exists r1 r2 hedge_part,
    place_brackets symbol size hs sl tp ob2 o h
    = (Print "Setting SL/TP orders..." []
         :: bracket_events (bybit_sl_request symbol size sl)
              "Bybit SL placed" "Bybit SL failed: {e}" r1
         ++ bracket_events (bybit_tp_request symbol size tp)
              "Bybit TP placed" "Bybit TP failed: {e}" r2
         ++ hedge_part,
       Returned tt) /\
    (truthy ob2 = true ->
     exists r3 r4,
       hedge_part
       = bracket_events (binance_tp_request symbol hs sl)
           "Binance TP placed" "Binance TP failed: {e}" r3
         ++ bracket_events (binance_sl_request symbol hs tp)
              "Binance SL placed" "Binance SL failed: {e}" r4) /\
    (truthy ob2 = false ->
     hedge_part = [Print "Skipping Binance SL/TP due to no short position" []]).
Proof.
  unfold place_brackets.
  rewrite bind_run. cbn [print].
  rewrite bind_run, place_bracket_run.
  rewrite bind_run, place_bracket_run.
  destruct (truthy ob2).
  - rewrite bind_run, !place_bracket_run.
    eexists _, _, _. split; [reflexivity|]. split; [|discriminate].
    intros _. eexists _, _. reflexivity.
  - eexists _, _, _. split; [reflexivity|]. split; [discriminate|].
    intros _. reflexivity.
Qed.










(** ** Hedge leg *)








(** ** 4.3 LeverageNegotiator: rejections *)

Lemma split_first_spec {A} (P : A -> bool) (pre : list A) x post :
  Forall (fun a => P a = false) pre ->
  P x = true ->
  split_first P (pre ++ x :: post) = Some (pre, x, post).
Proof.
  induction pre as [|a pre IH]; intros Hpre Hx; simpl.
  - rewrite Hx. reflexivity.
  - apply Forall_cons in Hpre as [Ha Hpre].
    rewrite Ha, (IH Hpre Hx). reflexivity.
Qed.

Lemma set_binance_leverage_fallback symbol o h req m_bn max_bn lev_bn e pre post :
  let run := set_binance_leverage symbol req o h in
  o h (Market Binance symbol) = Returned m_bn ->
  binance_effective_leverage m_bn req = Returned (max_bn, lev_bn) ->
  fst run = pre ++ Call (SetLeverage Binance lev_bn symbol) (Raised e) :: post ->
  Forall (fun ev => is_set_leverage ev = false) pre ->
  leverage_fallback symbol max_bn lev_bn e post (snd run).
Proof.
  intros run. subst run.
  destruct (set_binance_leverage symbol req o h) as [tr r] eqn:Hrun.
  simpl. intros Hm Hl Hsplit Hpre.
  pose proof (split_first_spec is_set_leverage pre
                (Call (SetLeverage Binance lev_bn symbol) (Raised e)) post
                Hpre eq_refl) as Hs.
  rewrite <- Hsplit in Hs. clear Hsplit Hpre.
  unfold set_binance_leverage, mbind, M_bind, mret, M_ret, call, lift, print,
    try_except, raise in Hrun.
  rewrite Hm, Hl in Hrun.
  run_cases;
    first
      [ apply already_set; assumption
      | apply other_bad_request; assumption
      | apply other_exception; assumption
      | match goal with
        | H : o _ (SetLeverage Binance ?m _) = ?r2
          |- leverage_fallback _ ?m _ _ _ _ =>
            apply (retried_at_max symbol m lev_bn e r2); assumption
        end ].
Qed.

Lemma set_bybit_leverage_rejection symbol o h req lev_by e pre post :
  let run := set_bybit_leverage symbol req o h in
  fst run = pre ++ Call (SetLeverage Bybit lev_by symbol) (Raised e) :: post ->
  Forall (fun ev => is_set_leverage ev = false) pre ->
  if (is_BadRequest e && contains "leverage not modified" (lower (msg e)))%bool
  then snd run = Returned lev_by /\
       post = [Print "Bybit leverage already at {lev_by}" [PNum lev_by]]
  else snd run = Raised e /\ post = [].
Proof.
  intros run. subst run.
  destruct (set_bybit_leverage symbol req o h) as [tr r] eqn:Hrun.
  simpl. intros Hsplit Hpre.
  pose proof (split_first_spec is_set_leverage pre
                (Call (SetLeverage Bybit lev_by symbol) (Raised e)) post
                Hpre eq_refl) as Hs.
  rewrite <- Hsplit in Hs. clear Hsplit Hpre.
  unfold set_bybit_leverage, mbind, M_bind, mret, M_ret, call, lift, print,
    try_except, raise in Hrun.
  run_cases;
    repeat match goal with H : _ = true |- _ => rewrite H | H : _ = false |- _ => rewrite H end;
    simpl; auto.
Qed.

Lemma set_binance_leverage_total symbol req o h l r :
  In (Call (SetLeverage Binance l symbol) r) (fst (set_binance_leverage symbol req o h)) ->
  exists lev, snd (set_binance_leverage symbol req o h) = Returned lev.
Proof.
  destruct (set_binance_leverage symbol req o h) as [tr res] eqn:Hrun.
  simpl. intros Hin.
  unfold set_binance_leverage, mbind, M_bind, mret, M_ret, call, lift, print,
    try_except, raise in Hrun.
  run_cases; eauto; exfalso; simpl in Hin; intuition discriminate.
Qed.

Lemma init_exchanges_not_binance_leverage : emits not_binance_leverage init_exchanges.
Proof. unfold init_exchanges. emits_walk; reflexivity. Qed.

Lemma set_bybit_leverage_not_binance_leverage symbol lev :
  emits not_binance_leverage (set_bybit_leverage symbol lev).
Proof. unfold set_bybit_leverage. emits_walk; reflexivity. Qed.

(** C2, amended: on the hedge venue a rejected [set_leverage] never ends
    the negotiation: "leverage not modified" (in any letter case) counts
    as set; "not valid" triggers exactly one retry at the venue maximum,
    adopted if it succeeds; any other failure is printed; and except
    after a successful retry the negotiation returns the leverage first
    attempted.  On the primary venue only a [BadRequest] saying "leverage
    not modified" is tolerated: any other rejection leaves the function,
    with no retry. *)
Theorem C2_leverage_rejection_handling symbol o h :
  (forall req m_bn max_bn lev_bn e pre post,
      let run := set_binance_leverage symbol req o h in
      o h (Market Binance symbol) = Returned m_bn ->
      binance_effective_leverage m_bn req = Returned (max_bn, lev_bn) ->
      fst run = pre ++ Call (SetLeverage Binance lev_bn symbol) (Raised e) :: post ->
      Forall (fun ev => is_set_leverage ev = false) pre ->
      leverage_fallback symbol max_bn lev_bn e post (snd run)) /\
  (forall bl nl l r,
      let run := negotiate_leverage symbol bl nl o h in
      In (Call (SetLeverage Binance l symbol) r) (fst run) ->
      exists lev, snd run = Returned lev) /\
  (forall req lev_by e pre post,
      let run := set_bybit_leverage symbol req o h in
      fst run = pre ++ Call (SetLeverage Bybit lev_by symbol) (Raised e) :: post ->
      Forall (fun ev => is_set_leverage ev = false) pre ->
      if (is_BadRequest e && contains "leverage not modified" (lower (msg e)))%bool
      then snd run = Returned lev_by /\
           post = [Print "Bybit leverage already at {lev_by}" [PNum lev_by]]
      else snd run = Raised e /\ post = []).
Proof.
  split; [|split].
  - intros. eapply set_binance_leverage_fallback; eassumption.
  - intros bl nl l r run. subst run. unfold negotiate_leverage.
    rewrite bind_run.
    pose proof (init_exchanges_not_binance_leverage o h) as Hi.
    destruct (init_exchanges o h) as [ei [[]|x]]; simpl in Hi.
    2:{ simpl. intros Hin. exfalso. absurd_in Hin. }
    rewrite bind_run.
    pose proof (set_bybit_leverage_not_binance_leverage symbol bl o (h ++ ei)) as Hb.
    destruct (set_bybit_leverage symbol bl o (h ++ ei)) as [eb [lb|x]]; simpl in Hb.
    2:{ simpl. intros Hin. exfalso. split_in Hin; absurd_in Hin. }
    pose proof (set_binance_leverage_total symbol nl o ((h ++ ei) ++ eb) l r) as Hn.
    destruct (set_binance_leverage symbol nl o ((h ++ ei) ++ eb)) as [en rn].
    simpl in *. intros Hin. apply Hn.
    split_in Hin; try absurd_in Hin. exact Hin.
  - intros. eapply set_bybit_leverage_rejection; eassumption.
Qed.

Lemma C2_witness :
  let e := Exn BadRequest "Leverage 20 is NOT VALID for this symbol" in
  let o := Examples.answering Examples.sel_first_binance_leverage (Raised e)
             Examples.calm in
  let run := set_binance_leverage Examples.symbol 20 o [] in
  leverage_fallback Examples.symbol 25 20 e (drop 3 (fst run)) (snd run) /\
  snd run = Returned 25.
Proof.
  intros e o run. split; [|reflexivity].
  apply (proj1 (C2_leverage_rejection_handling Examples.symbol o [])
           20 (Examples.market_info (PNum 25)) 25 20 e
           (take 2 (fst run)) (drop 3 (fst run))).
  - reflexivity.
  - vm_compute. reflexivity.
  - vm_compute. reflexivity.
  - vm_compute. repeat constructor.
Defined.

(** C2 as stated fails on the primary venue: a [BadRequest] saying the
    leverage is not valid leaves [execute] with that error, after a
    single [set_leverage] call (no retry at the maximum) and before the
    hedge venue is contacted for leverage. *)
Lemma C2_counterexample :
  let e := Exn BadRequest "leverage 20 is not valid" in
  let o := Examples.answering (Examples.sel_set_leverage Bybit) (Raised e)
             Examples.calm in
  let run := execute Examples.float_of_str Examples.no_env Examples.symbol
                     Examples.a_plan 20 20 false o [] in
  snd run = Raised e /\
  In (Call (SetLeverage Bybit 20 Examples.symbol) (Raised e)) (fst run) /\
  length (List.filter is_set_leverage (fst run)) = 1%nat.
Proof.
  vm_compute. repeat split. repeat (first [left; reflexivity | right]).
Qed.

(** ** 4.3 LeverageNegotiator: the effective leverage *)

Lemma qmin_same (a : Q) : qmin a a = a.
Proof. unfold qmin. destruct (Qltb a a); reflexivity. Qed.

(** Both venues apply [min(requested, max)] when the market reports a
    non-zero maximum, and the requested leverage when the [max] key is
    missing. *)
Lemma effective_leverage_reported (req m : Q) :
  ~ m == 0 ->
  bybit_effective_leverage (Examples.market_info (PNum m)) req
  = Returned (PNum m, qmin req m) /\
  binance_effective_leverage (Examples.market_info (PNum m)) req
  = Returned (m, qmin req m).
Proof.
  intros Hm. split; [reflexivity|].
  unfold binance_effective_leverage, Examples.market_info. simpl.
  unfold py_or. simpl. rewrite Qeq_bool_false by exact Hm. reflexivity.
Qed.

Lemma effective_leverage_absent (req : Q) :
  let market := PDict [("limits", PDict [("leverage", PDict [("min", PNum 1)])])] in
  bybit_effective_leverage market req = Returned (PNum req, req) /\
  binance_effective_leverage market req = Returned (req, req).
Proof.
  split; cbv [bybit_effective_leverage binance_effective_leverage py_index py_get
              assoc String.eqb Ascii.eqb Bool.eqb mbind outcome_bind py_min as_num
              py_or truthy];
    rewrite qmin_same; reflexivity.
Qed.

(** C4 at the failing input: a market whose leverage limit is reported
    as null.  The hedge venue falls back to the requested leverage; the
    primary venue raises [TypeError] from [min(leverage, None)] before
    any [set_leverage] call, and [execute] ends with that error. *)
Theorem C4_null_maximum (req : Q) :
  let market := Examples.market_info PNone in
  let type_error := Exn TypeError "unsupported operand type(s)" in
  binance_effective_leverage market req = Returned (req, req) /\
  bybit_effective_leverage market req = Raised type_error /\
  (forall symbol o h,
      o h (Market Bybit symbol) = Returned market ->
      set_bybit_leverage symbol req o h
      = ([Call (Market Bybit symbol) (Returned market)], Raised type_error)) /\
  (let o := Examples.answering (Examples.sel_market Bybit) (Returned market)
              Examples.calm in
   let run := execute Examples.float_of_str Examples.no_env Examples.symbol
                      Examples.a_plan 20 20 false o [] in
   snd run = Raised type_error /\
   existsb is_set_leverage (fst run) = false).
Proof.
  intros market type_error. split; [|split; [|split]].
  - unfold market, binance_effective_leverage. simpl. rewrite qmin_same. reflexivity.
  - reflexivity.
  - intros symbol o h Hm.
    unfold set_bybit_leverage. rewrite bind_run. unfold call at 1.
    rewrite Hm. reflexivity.
  - vm_compute. split; reflexivity.
Qed.

Lemma C4_witness :
  let market := Examples.market_info PNone in
  let o := Examples.answering (Examples.sel_market Bybit) (Returned market)
             Examples.calm in
  set_bybit_leverage Examples.symbol 20 o []
  = ([Call (Market Bybit Examples.symbol) (Returned market)],
     Raised (Exn TypeError "unsupported operand type(s)")).
Proof.
  intros market o.
  apply (proj1 (proj2 (proj2 (C4_null_maximum 20)))).
  reflexivity.
Defined.

(** ** 4.4 HedgeSizeCalculator *)

Lemma usdt_exec_cases fs (env : environ) size entry :
  (env !! "USDT_AMOUNT" = None -> usdt_exec fs env size entry = size * entry) /\
  (forall s, env !! "USDT_AMOUNT" = Some s -> fs s = None ->
             usdt_exec fs env size entry = size * entry) /\
  (forall s q, env !! "USDT_AMOUNT" = Some s -> fs s = Some q ->
               usdt_exec fs env size entry = q).
Proof.
  unfold usdt_exec. repeat split.
  - intros ->. reflexivity.
  - intros s -> ->. reflexivity.
  - intros s q -> ->. reflexivity.
Qed.

(** C6, amended: for a positive entry price the hedge order size is
    [min(targetSize, budget * leverage / entry)], where the budget is
    the value of [USDT_AMOUNT] and falls back to [size * entry] when the
    variable is unset or not numeric; the size is non-negative whenever
    the target size, the budget and the leverage are. *)
Theorem C6_hedge_size fs (env : environ) (params : plan) (lev_bn : Q) :
  0 < entry params ->
  let budget := usdt_exec fs env (size params) (entry params) in
  exists hedge_size max_qty,
    hedge_sizing fs env params lev_bn = Returned (hedge_size, max_qty) /\
    max_qty == budget * lev_bn / entry params /\
    hedge_size == Qmin (size params) max_qty /\
    (env !! "USDT_AMOUNT" = None -> budget = size params * entry params) /\
    (forall s, env !! "USDT_AMOUNT" = Some s -> fs s = None ->
               budget = size params * entry params) /\
    (forall s q, env !! "USDT_AMOUNT" = Some s -> fs s = Some q -> budget = q) /\
    (0 <= size params -> 0 <= budget -> 0 <= lev_bn -> 0 <= hedge_size).
Proof.
  intros Hentry budget.
  eexists _, _. split.
  { apply hedge_sizing_returns. lra. }
  fold budget.
  split; [reflexivity|]. split; [apply qmin_Qmin|].
  destruct (usdt_exec_cases fs env (size params) (entry params)) as (H1 & H2 & H3).
  repeat split; try assumption.
  intros Hs Hb Hl. rewrite qmin_Qmin.
  apply Q.min_glb; [exact Hs|].
  apply Qle_shift_div_l; [exact Hentry|].
  rewrite Qmult_0_l. apply Qmult_le_0_compat; assumption.
Qed.

Lemma C6_witness :
  let env : environ := {[ "USDT_AMOUNT" := "500" ]} in
  exists hedge_size max_qty,
    hedge_sizing Examples.float_of_str env Examples.a_plan 20
    = Returned (hedge_size, max_qty) /\
    max_qty == 100 /\ hedge_size == 9.96.
Proof.
  intros env.
  destruct (C6_hedge_size Examples.float_of_str env Examples.a_plan 20)
    as (hs & mq & H & Hmq & Hhs & _ & _ & Hb & _).
  - vm_compute. reflexivity.
  - exists hs, mq. split; [exact H|].
    assert (E : usdt_exec Examples.float_of_str env (size Examples.a_plan)
                          (entry Examples.a_plan) = 500)
      by (apply (Hb "500"); vm_compute; reflexivity).
    rewrite E in Hmq. split.
    + rewrite Hmq. vm_compute. reflexivity.
    + rewrite Hhs, Hmq. vm_compute. reflexivity.
Defined.

(** C6 as stated fails: with [USDT_AMOUNT=-100] in the environment, a
    target of 1 contract at entry 100 under leverage 20 gives a hedge
    size of -20. *)
Lemma C6_counterexample :
  let env : environ := {[ "USDT_AMOUNT" := "-100" ]} in
  exists hedge_size max_qty,
    hedge_sizing Examples.float_of_str env (Plan 1 100 99 101) 20
    = Returned (hedge_size, max_qty) /\
    hedge_size == -20 /\ hedge_size < 0.
Proof.
  eexists _, _. split; [vm_compute; reflexivity|].
  split; vm_compute; reflexivity.
Qed.

(** ** Where the two budgets come from *)

Lemma emits_lift_bind {A B} (P : event -> Prop) (r : outcome A) (k : A -> M B) :
  (forall a, r = Returned a -> emits P (k a)) -> emits P (lift r ≫= k).
Proof.
  intros H o h. rewrite bind_run. unfold lift.
  destruct r as [a|x]; [|constructor].
  specialize (H a eq_refl o (h ++ [])).
  destruct (k a o (h ++ [])) as [e2 r2]. exact H.
Qed.

Lemma no_order_short_for hs ev : no_order ev -> short_for hs ev.
Proof. intros H symbol amt r ->. discriminate H. Qed.

(** Every short the trading phase orders has the size computed from the
    environment's budget. *)
Lemma trade_short_amount fs env symbol params lev dry_run :
  emits (short_for (qmin (size params)
                         (usdt_exec fs env (size params) (entry params) * lev
                          / entry params)))
        (trade fs env symbol params lev dry_run).
Proof.
  unfold trade. simpl.
  apply emits_lift_bind. intros [hs mq] Hsz.
  assert (Hhs : hs = qmin (size params)
                          (usdt_exec fs env (size params) (entry params) * lev
                           / entry params)).
  { unfold hedge_sizing in Hsz.
    destruct (Qeq_bool (entry params) 0); [discriminate|]. congruence. }
  rewrite <- Hhs. clear Hhs Hsz.
  unfold dry_run_report, open_primary, open_hedge, recover_hedge, place_brackets,
    place_bracket. simpl.
  emits_walk; intros ? ? ? E; unfold hedge_request, close_long_request,
    primary_request, bybit_sl_request, bybit_tp_request, binance_tp_request,
    binance_sl_request in E; simplify_eq; reflexivity.
Qed.

Lemma analysis_no_order symbol : emits no_order (analysis symbol).
Proof.
  unfold analysis.
  apply emits_bind; [apply init_exchanges_no_order|intros _].
  emits_walk; reflexivity.
Qed.

Lemma parse_args_usdt_amount fs zs argv env a c :
  parse_args fs zs argv env = Returned a ->
  cli_usdt_amount argv = Some c ->
  arg_usdt_amount a = c.
Proof.
  unfold parse_args. intros H Hc. rewrite Hc in H.
  destruct (env_float fs env "USDT_AMOUNT" "1000"); [|discriminate].
  destruct (env_int zs env "BYBIT_LEVERAGE" "20"); [|discriminate].
  destruct (env_int zs env "BINANCE_LEVERAGE" "20"); [|discriminate].
  simpl in H. injection H as <-. reflexivity.
Qed.

Lemma plan_strategy_size data usdt_amount p :
  plan_strategy data usdt_amount = Returned p ->
  exists bk,
    order_book_of (book (bybit data)) = Returned bk /\
    calculate_contracts bk usdt_amount default_slippage = Returned (size p).
Proof.
  unfold plan_strategy. intros H.
  destruct (order_book_of (book (bybit data))) as [bk|x]; [|discriminate].
  exists bk. split; [reflexivity|]. simpl in H.
  destruct (calculate_contracts bk usdt_amount default_slippage) as [sz|x];
    [|discriminate].
  simpl in H. destruct (asks bk) as [|[entry0 ?] ?]; [discriminate|].
  injection H as <-. reflexivity.
Qed.

(** C10: in a run of the program with [--usdt_amount c] on the command
    line, the primary size is computed from [c], while every short
    market order on the hedge venue is sized from the [USDT_AMOUNT]
    environment variable read in [execute]: [size * entry] when the
    variable is unset - whatever [c] is - and its value when it is set. *)
Theorem C10_hedge_budget_from_environment fs zs argv env o c symbol amt r :
  cli_usdt_amount argv = Some c ->
  In (Call (hedge_request symbol amt) r) (fst (main fs zs argv env o [])) ->
  exists a data bk plan hist e1 lev,
    parse_args fs zs argv env = Returned a /\
    snd (analysis (arg_symbol a) o []) = Returned data /\
    order_book_of (book (bybit data)) = Returned bk /\
    calculate_contracts bk c default_slippage = Returned (size plan) /\
    plan_strategy data c = Returned plan /\
    negotiate_leverage (arg_symbol a) (inject_Z (arg_bybit_leverage a))
                       (inject_Z (arg_binance_leverage a)) o hist
    = (e1, Returned lev) /\
    let budget := usdt_exec fs env (size plan) (entry plan) in
    amt = qmin (size plan) (budget * lev / entry plan) /\
    (env !! "USDT_AMOUNT" = None -> budget = size plan * entry plan) /\
    (forall s q, env !! "USDT_AMOUNT" = Some s -> fs s = Some q -> budget = q).
Proof.
  intros Hc.
  destruct (main fs zs argv env o []) as [tr res] eqn:Hrun. simpl.
  unfold main in Hrun. rewrite bind_run in Hrun. unfold lift at 1 in Hrun.
  destruct (parse_args fs zs argv env) as [a|x] eqn:Hparse.
  2:{ simplify_eq. intros []. }
  rewrite (parse_args_usdt_amount _ _ _ _ _ _ Hparse Hc) in Hrun.
  rewrite bind_run in Hrun.
  pose proof (analysis_no_order (arg_symbol a) o []) as Han.
  change ([] ++ []) with (@nil event) in Hrun.
  destruct (analysis (arg_symbol a) o []) as [e0 [data|x]] eqn:Hdata; simpl in Han.
  2:{ simplify_eq. intros Hin. exfalso. split_in Hin; absurd_in Hin. }
  rewrite bind_run in Hrun. unfold lift at 1 in Hrun.
  destruct (plan_strategy data c) as [p|x] eqn:Hplan.
  2:{ simpl in Hrun. simplify_eq. intros Hin. exfalso. split_in Hin; absurd_in Hin. }
  rewrite bind_run in Hrun. cbn [print] in Hrun.
  rewrite bind_run in Hrun. unfold execute in Hrun. rewrite bind_run in Hrun.
  match type of Hrun with context [negotiate_leverage ?s ?b ?n o ?hist] =>
    pose proof (negotiate_leverage_no_order s b n o hist) as Hneg;
    destruct (negotiate_leverage s b n o hist) as [e1 [lev|x]] eqn:Hlev;
    simpl in Hneg
  end.
  2:{ simpl in Hrun. simplify_eq. intros Hin. exfalso. split_in Hin; absurd_in Hin. }
  match type of Hrun with context [trade ?f ?e ?s ?pp ?l ?d o ?hist] =>
    pose proof (trade_short_amount f e s pp l d o hist) as Htr;
    destruct (trade f e s pp l d o hist) as [e2 r2]
  end.
  simpl in Htr.
  destruct (plan_strategy_size _ _ _ Hplan) as (bk & Hbk & Hsize).
  intros Hin.
  assert (Hamt : amt = qmin (size p)
                        (usdt_exec fs env (size p) (entry p) * lev / entry p)).
  { destruct r2 as [res2|x]; simpl in Hrun; simplify_eq;
      split_in Hin; try absurd_in Hin;
      exact (Forall_In _ _ _ Htr Hin symbol amt r eq_refl). }
  destruct (usdt_exec_cases fs env (size p) (entry p)) as (H1 & _ & H3).
  eexists a, data, bk, p, _, e1, lev.
  split; [reflexivity|]. split; [rewrite Hdata; reflexivity|].
  repeat split; eassumption.
Qed.

Lemma C10_witness :
  let fs := Examples.float_of_str in
  let zs := Examples.int_of_str in
  let argv := Cli None (Some 1000) None None false in
  let env : environ := {[ "USDT_AMOUNT" := "40" ]} in
  let o := Examples.calm in
  exists a data bk plan hist e1 lev,
    parse_args fs zs argv env = Returned a /\
    snd (analysis (arg_symbol a) o []) = Returned data /\
    order_book_of (book (bybit data)) = Returned bk /\
    calculate_contracts bk 1000 default_slippage = Returned (size plan) /\
    plan_strategy data 1000 = Returned plan /\
    negotiate_leverage (arg_symbol a) (inject_Z (arg_bybit_leverage a))
                       (inject_Z (arg_binance_leverage a)) o hist
    = (e1, Returned lev) /\
    let budget := usdt_exec fs env (size plan) (entry plan) in
    (800 # 100) = qmin (size plan) (budget * lev / entry plan) /\
    (env !! "USDT_AMOUNT" = None -> budget = size plan * entry plan) /\
    (forall s q, env !! "USDT_AMOUNT" = Some s -> fs s = Some q -> budget = q).
Proof.
  intros fs zs argv env o.
  apply (C10_hedge_budget_from_environment fs zs argv env o 1000
           Examples.symbol (800 # 100) (Returned (Examples.order_info "order-1"))).
  - reflexivity.
  - vm_compute. repeat (first [left; reflexivity | right]).
Defined.

(** The same run, spelled out: the long is for 9.96 contracts (sized
    from the 1000 USDT of the command line), the short for 8 (sized from
    the 40 USDT of the environment). *)
Example two_budgets :
  let env : environ := {[ "USDT_AMOUNT" := "40" ]} in
  let run := main Examples.float_of_str Examples.int_of_str
                  (Cli None (Some 1000) None None false) env Examples.calm [] in
  In (Call (primary_request Examples.symbol 9.96)
           (Returned (Examples.order_info "long-1"))) (fst run) /\
  In (Call (hedge_request Examples.symbol (800 # 100))
           (Returned (Examples.order_info "order-1"))) (fst run).
Proof.
  vm_compute. split; repeat (first [left; reflexivity | right]).
Qed.

Example scenario_A :
  calculate_contracts (OrderBook [(100, 5); (101, 10)]) 1000 default_slippage
  = Returned (round2 (5 + (1001 - 500) / 101)).
Proof. reflexivity. Qed.

Example scenario_A_value : round2 (5 + (1001 - 500) / 101) == 9.96.
Proof. reflexivity. Qed.

Example scenario_B :
  binance_effective_leverage (Examples.market_info (PNum 25)) 50 = Returned (25, 25).
Proof. reflexivity. Qed.

(** * Further properties of the code *)

(** ** Sizer: errors, bounds, monotonicity *)

Lemma walk_asks_total (cap : Q) (levels : list level) :
  forall total contracts,
    total <= cap ->
    exists r, walk_asks cap levels total contracts = Returned r.
Proof.
  induction levels as [|[p a] levels IH]; intros total contracts Hle; simpl.
  - eauto.
  - destruct (Qltb cap (total + p * a)) eqn:E.
    + apply Qltb_true in E.
      rewrite Qeq_bool_false; [eauto|].
      intros Hp. rewrite Hp in E. lra.
    + apply Qltb_false in E. apply IH. exact E.
Qed.

Lemma walk_asks_raises (cap : Q) (levels : list level) :
  forall total contracts e,
    walk_asks cap levels total contracts = Raised e ->
    cls e = ZeroDivisionError.
Proof.
  induction levels as [|[p a] levels IH]; intros total contracts e H; simpl in H.
  - discriminate.
  - destruct (Qltb cap (total + p * a)).
    + destruct (Qeq_bool p 0); [|discriminate]. injection H as <-. reflexivity.
    + eapply IH. exact H.
Qed.

Lemma calculate_contracts_returns (book : order_book) (B s : Q) :
  0 <= B * (1 + s) -> exists q, calculate_contracts book B s = Returned q.
Proof.
  intros Hcap. unfold calculate_contracts.
  destruct (walk_asks_total (B * (1 + s)) (asks book) 0 0 Hcap) as [r Hr].
  rewrite Hr. simpl. eauto.
Qed.

(** With a non-negative budget-with-slippage the sizer returns on every
    book, whatever its prices and amounts; its only error is the
    [ZeroDivisionError] of the partial fill, and then the
    budget-with-slippage is negative. *)
Theorem calculate_contracts_errors (book : order_book) (B s : Q) :
  (0 <= B * (1 + s) -> exists q, calculate_contracts book B s = Returned q) /\
  (forall e, calculate_contracts book B s = Raised e ->
             cls e = ZeroDivisionError /\ B * (1 + s) < 0).
Proof.
  pose proof (calculate_contracts_returns book B s) as Hret.
  split; [exact Hret|].
  intros e He. split.
  - unfold calculate_contracts in He.
    destruct (walk_asks (B * (1 + s)) (asks book) 0 0) as [r|x] eqn:Hw;
      [discriminate|].
    simpl in He. injection He as <-. eapply walk_asks_raises. exact Hw.
  - apply Qnot_le_lt. intros Hcap. destruct (Hret Hcap) as [q Hq]. congruence.
Qed.

Lemma calculate_contracts_errors_witness :
  exists q, calculate_contracts (OrderBook [(0, 3); (-(2), 1)]) 10 default_slippage
            = Returned q.
Proof.
  apply (proj1 (calculate_contracts_errors (OrderBook [(0, 3); (-(2), 1)]) 10
                  default_slippage)).
  vm_compute. discriminate.
Defined.

(** The zero-price error is real: a negative budget and a first level
    priced 0 raise. *)
Theorem calculate_contracts_zero_price (a : Q) (rest : list level) (B s : Q) :
  B * (1 + s) < 0 ->
  exists e, calculate_contracts (OrderBook ((0, a) :: rest)) B s = Raised e /\
            cls e = ZeroDivisionError.
Proof.
  intros Hcap. unfold calculate_contracts. simpl.
  rewrite (proj2 (Qltb_true _ _)) by lra.
  eexists. split; reflexivity.
Qed.

Lemma calculate_contracts_zero_price_witness :
  exists e, calculate_contracts (OrderBook [(0, 3)]) (-(5)) default_slippage = Raised e /\
            cls e = ZeroDivisionError.
Proof.
  apply (calculate_contracts_zero_price 3 [] (-(5)) default_slippage).
  vm_compute. reflexivity.
Defined.

(** On a well-formed book the loop adds a quantity between 0 and the
    depth still to walk. *)
Lemma walk_asks_bounds (cap : Q) (levels : list level) :
  forall total contracts,
    well_formed levels ->
    total <= cap ->
    exists r,
      walk_asks cap levels total contracts = Returned r /\
      contracts <= r /\ r <= contracts + total_amount levels.
Proof.
  induction levels as [|[p a] levels IH]; intros total contracts Hwf Hle; simpl.
  - exists contracts. repeat split; lra.
  - apply Forall_cons in Hwf as [[Hp Ha] Hwf]. simpl in Hp, Ha.
    destruct (Qltb cap (total + p * a)) eqn:E.
    + apply Qltb_true in E. rewrite Qeq_bool_false by lra.
      assert (H0 : 0 <= (cap - total) / p)
        by (apply Qle_shift_div_l; [exact Hp | lra]).
      assert (H1 : (cap - total) / p <= a)
        by (apply Qle_shift_div_r; [exact Hp | lra]).
      assert (H2 : 0 <= total_amount levels).
      { clear -Hwf. induction Hwf as [|[p' a'] l [_ Ha'] _ IHl]; simpl in *; lra. }
      eexists. split; [reflexivity|]. split; lra.
    + apply Qltb_false in E.
      destruct (IH (total + p * a) (contracts + a) Hwf E) as (r & Hr & Hlo & Hhi).
      exists r. split; [exact Hr|]. split; lra.
Qed.

Lemma round_half_even_bounds (x : Q) :
  (Qfloor x <= round_half_even x <= Qfloor x + 1)%Z.
Proof.
  unfold round_half_even.
  destruct (Qcompare (x - inject_Z (Qfloor x)) (1 # 2));
    [destruct (Z.even (Qfloor x))| |]; lia.
Qed.

Lemma round_half_even_mono (x y : Q) :
  x <= y -> (round_half_even x <= round_half_even y)%Z.
Proof.
  intros Hxy.
  pose proof (Qfloor_resp_le x y Hxy) as Hf.
  destruct (Z.eq_dec (Qfloor x) (Qfloor y)) as [E|NE].
  - unfold round_half_even. rewrite E.
    destruct (Qcompare (x - inject_Z (Qfloor y)) (1 # 2)) eqn:Cx;
      destruct (Qcompare (y - inject_Z (Qfloor y)) (1 # 2)) eqn:Cy;
      first [apply Qeq_alt in Cx | apply Qlt_alt in Cx | apply Qgt_alt in Cx];
      first [apply Qeq_alt in Cy | apply Qlt_alt in Cy | apply Qgt_alt in Cy];
      try (exfalso; lra);
      destruct (Z.even (Qfloor y)); lia.
  - pose proof (round_half_even_bounds x). pose proof (round_half_even_bounds y). lia.
Qed.

Lemma round2_mono (x y : Q) : x <= y -> round2 x <= round2 y.
Proof.
  intros Hxy. unfold round2. rewrite !div_100.
  assert (H : inject_Z (round_half_even (x * 100)) <= inject_Z (round_half_even (y * 100))).
  { rewrite <- Zle_Qle. apply round_half_even_mono. lra. }
  lra.
Qed.

Lemma round2_nonneg (x : Q) : 0 <= x -> 0 <= round2 x.
Proof.
  intros Hx. apply (round2_mono 0 x) in Hx.
  assert (E : round2 0 == 0) by reflexivity. lra.
Qed.

(** On a well-formed book and for a non-negative budget and slippage,
    the size returned is not negative, and before its rounding it does
    not exceed the depth of the book. *)
Theorem calculate_contracts_bounds (book : order_book) (B s : Q) :
  well_formed (asks book) ->
  0 <= B ->
  0 <= s ->
  exists raw,
    calculate_contracts book B s = Returned (round2 raw) /\
    0 <= raw /\ raw <= total_amount (asks book) /\
    0 <= round2 raw /\ round2 raw <= round2 (total_amount (asks book)).
Proof.
  intros Hwf HB Hs.
  assert (Hcap : 0 <= B * (1 + s)) by (apply Qmult_le_0_compat; lra).
  destruct (walk_asks_bounds (B * (1 + s)) (asks book) 0 0 Hwf Hcap)
    as (r & Hr & Hlo & Hhi).
  exists r. unfold calculate_contracts. rewrite Hr.
  split; [reflexivity|].
  assert (Hd : r <= total_amount (asks book)) by lra.
  repeat split; try assumption.
  - apply round2_nonneg. exact Hlo.
  - apply round2_mono. exact Hd.
Qed.

Lemma calculate_contracts_bounds_witness :
  exists raw,
    calculate_contracts (OrderBook [(100, 5); (101, 10)]) 1000 default_slippage
    = Returned (round2 raw) /\
    0 <= raw /\ raw <= total_amount [(100, 5); (101, 10)] /\
    0 <= round2 raw /\ round2 raw <= round2 (total_amount [(100, 5); (101, 10)]).
Proof.
  apply (calculate_contracts_bounds (OrderBook [(100, 5); (101, 10)]) 1000
           default_slippage).
  - repeat constructor; vm_compute; congruence.
  - vm_compute. discriminate.
  - vm_compute. discriminate.
Defined.

Lemma walk_asks_mono (levels : list level) :
  forall cap cap' total contracts,
    well_formed levels ->
    total <= cap ->
    cap <= cap' ->
    exists r r',
      walk_asks cap levels total contracts = Returned r /\
      walk_asks cap' levels total contracts = Returned r' /\
      r <= r'.
Proof.
  induction levels as [|[p a] levels IH]; intros cap cap' total contracts Hwf Hle Hcc.
  - exists contracts, contracts. simpl. repeat split; lra.
  - pose proof Hwf as Hwf0.
    apply Forall_cons in Hwf as [[Hp Ha] Hwf]. simpl in Hp, Ha. simpl.
    destruct (Qltb cap (total + p * a)) eqn:E.
    + apply Qltb_true in E. rewrite Qeq_bool_false by lra.
      destruct (Qltb cap' (total + p * a)) eqn:E'.
      * apply Qltb_true in E'.
        eexists _, _. split; [reflexivity|]. split; [reflexivity|].
        assert (H : (cap - total) / p <= (cap' - total) / p).
        { apply Qle_shift_div_l; [exact Hp|].
          assert (Heq : (cap - total) / p * p == cap - total) by (field; lra).
          rewrite Heq. lra. }
        lra.
      * apply Qltb_false in E'.
        destruct (walk_asks_bounds cap' levels (total + p * a) (contracts + a) Hwf E')
          as (r' & Hr' & Hlo & _).
        eexists _, r'. split; [reflexivity|]. split; [exact Hr'|].
        assert (H1 : (cap - total) / p <= a)
          by (apply Qle_shift_div_r; [exact Hp | lra]).
        lra.
    + apply Qltb_false in E.
      rewrite (proj2 (Qltb_false cap' (total + p * a))) by lra.
      apply IH; assumption.
Qed.

(** A larger budget never buys fewer contracts: on a well-formed book
    the returned size is monotone in the budget. *)
Theorem calculate_contracts_monotone (book : order_book) (B B' s : Q) :
  well_formed (asks book) ->
  0 <= B ->
  B <= B' ->
  0 <= s ->
  exists q q',
    calculate_contracts book B s = Returned q /\
    calculate_contracts book B' s = Returned q' /\
    q <= q'.
Proof.
  intros Hwf HB HBB Hs.
  assert (Hcap : 0 <= B * (1 + s)) by (apply Qmult_le_0_compat; lra).
  assert (Hcc : B * (1 + s) <= B' * (1 + s)) by (apply Qmult_le_compat_r; lra).
  destruct (walk_asks_mono (asks book) _ _ 0 0 Hwf Hcap Hcc) as (r & r' & Hr & Hr' & Hle).
  unfold calculate_contracts. rewrite Hr, Hr'. simpl.
  eexists _, _. split; [reflexivity|]. split; [reflexivity|].
  apply round2_mono. exact Hle.
Qed.

Lemma calculate_contracts_monotone_witness :
  exists q q',
    calculate_contracts (OrderBook [(100, 5); (101, 10)]) 600 default_slippage = Returned q /\
    calculate_contracts (OrderBook [(100, 5); (101, 10)]) 1000 default_slippage = Returned q' /\
    q <= q'.
Proof.
  apply (calculate_contracts_monotone (OrderBook [(100, 5); (101, 10)]) 600 1000
           default_slippage).
  - repeat constructor; vm_compute; congruence.
  - vm_compute. discriminate.
  - vm_compute. discriminate.
  - vm_compute. discriminate.
Defined.

(** ** Planner and command line *)

Lemma unpack_levels_values (levels : list level) :
  unpack_levels (map level_value levels) = Returned levels.
Proof.
  induction levels as [|[p a] levels IH]; simpl; [reflexivity|].
  rewrite IH. reflexivity.
Qed.

Lemma order_book_of_asks (book : pyval) (levels : list level) :
  holds_asks book levels -> order_book_of book = Returned (OrderBook levels).
Proof.
  intros (kvs & -> & Hasks). unfold order_book_of. simpl.
  rewrite Hasks. simpl. rewrite unpack_levels_values. reflexivity.
Qed.

(** On a book with at least one ask the planner enters at the best
    ask, with the stop-loss 1% below and the take-profit 1% above, and
    sizes the position with the sizer under the default slippage; for a
    positive best ask the stop-loss is below and the take-profit above
    the entry. *)
Theorem plan_strategy_bands (data : market_data) (usdt_amount p a : Q)
        (rest : list level) :
  holds_asks (book (bybit data)) ((p, a) :: rest) ->
  0 <= usdt_amount ->
  exists size,
    calculate_contracts (OrderBook ((p, a) :: rest)) usdt_amount default_slippage
    = Returned size /\
    plan_strategy data usdt_amount = Returned (Plan size p (p * 0.99) (p * 1.01)) /\
    (0 < p -> p * 0.99 < p /\ p < p * 1.01).
Proof.
  intros Hbook Husdt.
  destruct (calculate_contracts_returns (OrderBook ((p, a) :: rest))
              usdt_amount default_slippage) as [size Hsize].
  { apply Qmult_le_0_compat; [exact Husdt|]. vm_compute. discriminate. }
  exists size. split; [exact Hsize|]. split.
  - unfold plan_strategy. rewrite (order_book_of_asks _ _ Hbook). simpl.
    unfold calculate_contracts in Hsize. simpl in Hsize.
    unfold calculate_contracts. simpl. rewrite Hsize. reflexivity.
  - intros Hp. split; lra.
Qed.

Lemma plan_strategy_bands_witness :
  exists size,
    calculate_contracts (OrderBook [(100, 5); (101, 10)]) 1000 default_slippage
    = Returned size /\
    plan_strategy (MarketData (VenueData PNone Examples.book_info)
                              (VenueData PNone PNone)) 1000
    = Returned (Plan size 100 (100 * 0.99) (100 * 1.01)) /\
    (0 < 100 -> 100 * 0.99 < 100 /\ 100 < 100 * 1.01).
Proof.
  apply (plan_strategy_bands
           (MarketData (VenueData PNone Examples.book_info) (VenueData PNone PNone))
           1000 100 5 [(101, 10)]).
  - eexists. split; reflexivity.
  - vm_compute. discriminate.
Defined.

Lemma plan_strategy_empty_asks (data : market_data) (usdt_amount : Q) :
  holds_asks (book (bybit data)) [] ->
  plan_strategy data usdt_amount = Raised (Exn IndexError "list index out of range").
Proof.
  intros Hbook. unfold plan_strategy.
  rewrite (order_book_of_asks _ _ Hbook). reflexivity.
Qed.

(** Without ask levels there is no plan: an empty [asks] list raises
    [IndexError] at [book['asks'][0][0]], a book without the [asks] key
    raises [KeyError]. *)
Theorem plan_strategy_no_asks (data : market_data) (usdt_amount : Q) :
  (holds_asks (book (bybit data)) [] ->
   plan_strategy data usdt_amount
   = Raised (Exn IndexError "list index out of range")) /\
  (forall kvs, book (bybit data) = PDict kvs -> assoc "asks" kvs = None ->
               plan_strategy data usdt_amount = Raised (Exn KeyError "asks")).
Proof.
  split.
  - apply plan_strategy_empty_asks.
  - intros kvs Hb Hk. unfold plan_strategy, order_book_of. rewrite Hb. simpl.
    rewrite Hk. reflexivity.
Qed.

Lemma plan_strategy_no_asks_witness :
  plan_strategy (MarketData (VenueData PNone (PDict [("asks", PList []); ("bids", PList [])]))
                            (VenueData PNone PNone)) 1000
  = Raised (Exn IndexError "list index out of range").
Proof.
  apply (proj1 (plan_strategy_no_asks _ 1000)).
  exists [("asks", PList []); ("bids", PList [])]. split; reflexivity.
Defined.



(** The defaults are read while the parser is built: a [USDT_AMOUNT]
    that is set but not numeric ends the program with [ValueError]
    before any connector call, even when [--usdt_amount] is given. *)
Theorem main_rejects_non_numeric_budget fs zs argv (env : environ) s o h :
  env !! "USDT_AMOUNT" = Some s ->
  fs s = None ->
  main fs zs argv env o h
  = ([], Raised (Exn ValueError "could not convert string to float")).
Proof.
  intros He Hs. unfold main. rewrite bind_run. unfold lift.
  unfold parse_args, env_float, getenv. rewrite He, Hs. reflexivity.
Qed.

Lemma main_rejects_non_numeric_budget_witness :
  let env : environ := {[ "USDT_AMOUNT" := "plenty" ]} in
  main Examples.float_of_str Examples.int_of_str
       (Cli None (Some 1000) None None false) env Examples.calm []
  = ([], Raised (Exn ValueError "could not convert string to float")).
Proof.
  intros env.
  apply (main_rejects_non_numeric_budget _ _ _ env "plenty"); vm_compute; reflexivity.
Defined.

(** ** Session setup and market data *)

(** Hedge mode is best effort, market loading is not: once the
    hedge-mode request is made [init_exchanges] returns, printing the
    outcome either way, while a failed [load_markets] on either venue
    ends it with that error before hedge mode is requested. *)
Theorem init_exchanges_outcomes (o : oracle) (h : list event) :
  let run := init_exchanges o h in
  (forall r, In (Call (PositionSideDual true) r) (fst run) ->
             snd run = Returned tt /\
             In match r with
                | Returned _ => Print "Binance hedge mode enabled" []
                | Raised e => Print "Warning: could not enable hedge mode: {e}"
                                    [PStr (msg e)]
                end (fst run)) /\
  (forall v e, In (Call (LoadMarkets v) (Raised e)) (fst run) ->
               snd run = Raised e /\
               Forall (fun ev => is_mutation ev = false) (fst run)).
Proof.
  intros run. subst run.
  destruct (init_exchanges o h) as [tr res] eqn:Hrun. simpl.
  unfold init_exchanges, mbind, M_bind, mret, M_ret, call, lift, print,
    try_except, raise in Hrun.
  split.
  - intros r Hin. run_cases; simpl in Hin;
      repeat (destruct Hin as [Hin|Hin]; try discriminate Hin); try contradiction;
      simplify_eq; split; try reflexivity;
      repeat (first [left; reflexivity | right]).
  - intros v e Hin. run_cases; simpl in Hin;
      repeat (destruct Hin as [Hin|Hin]; try discriminate Hin); try contradiction;
      simplify_eq; try congruence;
      (split; [congruence|repeat constructor]).
Qed.

Lemma init_exchanges_outcomes_witness :
  let e := Exn ExchangeError "No need to change position side." in
  let o := Examples.answering
             (fun _ rq => match rq with PositionSideDual _ => true | _ => false end)
             (Raised e) Examples.calm in
  snd (init_exchanges o []) = Returned tt /\
  In (Print "Warning: could not enable hedge mode: {e}" [PStr (msg e)])
     (fst (init_exchanges o [])).
Proof.
  intros e o.
  apply (proj1 (init_exchanges_outcomes o []) (Raised e)).
  vm_compute. auto.
Defined.

Lemma analysis_no_set_leverage symbol :
  emits (fun ev => is_set_leverage ev = false) (analysis symbol).
Proof. unfold analysis, init_exchanges. emits_walk; reflexivity. Qed.

(** [analysis] only reads the market: it sets no leverage and places no
    order; the data it returns are the venues' answers to the four
    fetches, funding rate then 20-level order book, primary venue
    first. *)
Theorem analysis_reads_market (symbol : string) (o : oracle) (h : list event) :
  let run := analysis symbol o h in
  Forall no_order (fst run) /\
  Forall (fun ev => is_set_leverage ev = false) (fst run) /\
  (forall data, snd run = Returned data ->
     exists pre,
       fst run
       = pre ++ [Call (FetchFundingRate Bybit symbol) (Returned (funding (bybit data)));
                 Call (FetchOrderBook Bybit symbol 20) (Returned (book (bybit data)));
                 Call (FetchFundingRate Binance symbol) (Returned (funding (binance data)));
                 Call (FetchOrderBook Binance symbol 20) (Returned (book (binance data)))]).
Proof.
  intros run. subst run.
  split; [apply analysis_no_order|]. split; [apply analysis_no_set_leverage|].
  intros data. unfold analysis. rewrite bind_run.
  destruct (init_exchanges o h) as [ei [[]|x]]; [|discriminate].
  unfold mbind, M_bind, mret, M_ret, call.
  repeat match goal with
         | |- context [o ?hist ?rq] =>
             lazymatch rq with
             | FetchFundingRate _ _ => idtac
             | FetchOrderBook _ _ _ => idtac
             end;
             destruct (o hist rq); [|simpl; discriminate]
         end.
  simpl. intros H. injection H as <-. exists ei. reflexivity.
Qed.

Lemma analysis_reads_market_witness :
  exists pre,
    fst (analysis Examples.symbol Examples.calm [])
    = pre ++ [Call (FetchFundingRate Bybit Examples.symbol) (Returned PNone);
              Call (FetchOrderBook Bybit Examples.symbol 20) (Returned Examples.book_info);
              Call (FetchFundingRate Binance Examples.symbol) (Returned PNone);
              Call (FetchOrderBook Binance Examples.symbol 20)
                   (Returned Examples.book_info)].
Proof.
  apply (proj2 (proj2 (analysis_reads_market Examples.symbol Examples.calm []))
           (MarketData (VenueData PNone Examples.book_info)
                       (VenueData PNone Examples.book_info))).
  vm_compute. reflexivity.
Defined.

(** An empty ask side on the primary venue ends the program with
    [IndexError] right after the analysis: no leverage has been set and
    no order placed. *)
Theorem main_stops_on_empty_book fs zs argv (env : environ) o a e0 data :
  parse_args fs zs argv env = Returned a ->
  analysis (arg_symbol a) o [] = (e0, Returned data) ->
  holds_asks (book (bybit data)) [] ->
  main fs zs argv env o [] = (e0, Raised (Exn IndexError "list index out of range")) /\
  Forall no_order e0 /\
  Forall (fun ev => is_set_leverage ev = false) e0.
Proof.
  intros Hparse Hdata Hbook.
  pose proof (analysis_no_order (arg_symbol a) o []) as H1.
  pose proof (analysis_no_set_leverage (arg_symbol a) o []) as H2.
  rewrite Hdata in H1, H2. simpl in H1, H2.
  split; [|split; assumption].
  unfold main. rewrite bind_run. unfold lift at 1. rewrite Hparse.
  rewrite bind_run. change ([] ++ []) with (@nil event). rewrite Hdata.
  rewrite bind_run. unfold lift at 1.
  rewrite (plan_strategy_empty_asks data (arg_usdt_amount a) Hbook).
  simpl. rewrite app_nil_r. reflexivity.
Qed.

Lemma main_stops_on_empty_book_witness :
  let o := Examples.answering
             (fun _ rq => match rq with FetchOrderBook _ _ _ => true | _ => false end)
             (Returned (PDict [("asks", PList [])])) Examples.calm in
  snd (main Examples.float_of_str Examples.int_of_str
            (Cli None None None None false) Examples.no_env o [])
  = Raised (Exn IndexError "list index out of range").
Proof.
  intros o.
  destruct (main_stops_on_empty_book Examples.float_of_str Examples.int_of_str
              (Cli None None None None false) Examples.no_env o
              (Args "ALPACA/USDT:USDT" 1000 20 20 false)
              (fst (analysis "ALPACA/USDT:USDT" o []))
              (MarketData (VenueData PNone (PDict [("asks", PList [])]))
                          (VenueData PNone (PDict [("asks", PList [])]))))
    as [H _].
  - vm_compute. reflexivity.
  - vm_compute. reflexivity.
  - exists [("asks", PList [])]. split; reflexivity.
  - rewrite H. reflexivity.
Defined.

(** ** Shape of a live run *)

(** How a non-dry [execute] can go: it ends before the primary buy; or
    the primary buy is rejected; or it is accepted and the hedge phase
    runs, after which the brackets are placed unless the hedge phase
    raised. *)
Lemma execute_live_shape fs env symbol params bl nl o h :
  let run := execute fs env symbol params bl nl false o h in
  (Forall no_order (fst run) /\ exists e, snd run = Raised e) \/
  (exists pre e,
      Forall no_order pre /\ snd run = Raised e /\
      fst run = pre ++ Call (primary_request symbol (size params)) (Raised e)
                    :: (if is_ExchangeError e
                        then [Print "Bybit buy order failed: {e}" [PStr (msg e)]]
                        else [])) \/
  (exists pre ob1 hs hist eh rh lev,
      Forall no_order pre /\
      hs = qmin (size params)
                (usdt_exec fs env (size params) (entry params) * lev / entry params) /\
      open_hedge fs symbol hs o hist = (eh, rh) /\
      match rh with
      | Raised x =>
          snd run = Raised x /\
          fst run = pre ++ Call (primary_request symbol (size params)) (Returned ob1)
                        :: eh
      | Returned ob2 =>
          exists hist',
            snd run = Returned (Result ob1 ob2) /\
            fst run = pre ++ Call (primary_request symbol (size params)) (Returned ob1)
                          :: eh
                          ++ fst (place_brackets symbol (size params) hs (sl params)
                                    (tp params) ob2 o hist')
      end).
Proof.
  intros run. subst run.
  destruct (execute fs env symbol params bl nl false o h) as [tr r] eqn:Hrun.
  simpl. unfold execute in Hrun. rewrite bind_run in Hrun.
  pose proof (negotiate_leverage_no_order symbol bl nl o h) as Hneg.
  destruct (negotiate_leverage symbol bl nl o h) as [e1 [lev|x]]; simpl in Hneg.
  2:{ simplify_eq. left. eauto. }
  unfold trade in Hrun. simpl in Hrun. rewrite bind_run in Hrun. unfold lift in Hrun.
  destruct (hedge_sizing fs env params lev) as [[hs mq]|x] eqn:Hsz.
  2:{ simplify_eq. left. rewrite app_nil_r. eauto. }
  assert (Hhs : hs = qmin (size params)
                          (usdt_exec fs env (size params) (entry params) * lev
                           / entry params)).
  { unfold hedge_sizing in Hsz.
    destruct (Qeq_bool (entry params) 0); [discriminate|]. congruence. }
  rewrite bind_run in Hrun. simpl in Hrun.
  rewrite bind_run in Hrun. simpl in Hrun.
  rewrite bind_run in Hrun.
  unfold open_primary, try_except, call in Hrun.
  match type of Hrun with context [o ?hist (primary_request symbol (size params))] =>
    set (hp := hist) in *; destruct (o hp (primary_request symbol (size params)))
      as [ob1|e'] eqn:Ho end.
  2:{ right. left.
      match eval unfold hp in hp with (_ ++ [?p1]) ++ [?p2] =>
        exists (e1 ++ [p1; p2]), e' end.
      split; [apply Forall_app; split; [exact Hneg|repeat constructor]|].
      destruct (is_ExchangeError e'); simpl in Hrun; simplify_eq;
        (split; [reflexivity|]); rewrite <- app_assoc; reflexivity. }
  right. right.
  rewrite bind_run in Hrun.
  set (hh := hp ++ [Call (primary_request symbol (size params)) (Returned ob1)]) in *.
  destruct (open_hedge fs symbol hs o hh) as [eh rh] eqn:Hopen.
  match eval unfold hp in hp with (_ ++ [?p1]) ++ [?p2] =>
    exists (e1 ++ [p1; p2]), ob1, hs, hh, eh, rh, lev end.
  split; [apply Forall_app; split; [exact Hneg|repeat constructor]|].
  split; [exact Hhs|]. split; [exact Hopen|].
  destruct rh as [ob2|x].
  - rewrite bind_run in Hrun.
    match type of Hrun with context [place_brackets ?a ?b ?c ?d ?f ?g o ?hist] =>
      exists hist;
      destruct (place_brackets_run a b c d f g o hist) as (r1 & r2 & part & Hbr & _);
      rewrite Hbr in *
    end.
    simpl in Hrun. injection Hrun as <- <-. split; [reflexivity|].
    rewrite <- app_assoc. simpl. rewrite app_nil_r. reflexivity.
  - simpl in Hrun. injection Hrun as <- <-. split; [reflexivity|].
    rewrite <- app_assoc. reflexivity.
Qed.

Lemma split_after {A} (P : A -> bool) (l : list A) :
  forall c rest pre x post,
    l ++ c :: rest = pre ++ x :: post ->
    Forall (fun a => P a = false) l -> P c = false -> P x = true ->
    exists mid, pre = l ++ c :: mid.
Proof.
  induction l as [|a l IH]; intros c rest [|b pre] x post E Hl Hc Hx;
    simpl in E; injection E as E1 E2; subst.
  - congruence.
  - exists pre. reflexivity.
  - apply Forall_cons in Hl as [Ha _]. congruence.
  - apply Forall_cons in Hl as [_ Hl].
    destruct (IH _ _ _ _ _ E2 Hl Hc Hx) as [mid ->]. exists mid. reflexivity.
Qed.

Lemma no_order_not_later ev : no_order ev -> is_later_order ev = false.
Proof. unfold no_order, is_later_order. intros ->. reflexivity. Qed.

Lemma execute_dry_run_no_order fs env symbol params bl nl :
  emits no_order (execute fs env symbol params bl nl true).
Proof.
  unfold execute.
  apply emits_bind; [apply negotiate_leverage_no_order|intros lev].
  apply trade_dry_run_no_order.
Qed.

(** Ordering: whatever the venues answer, a hedge order, a position
    query or a bracket is only ever sent after the primary market buy
    has been accepted. *)
Theorem orders_follow_primary fs env symbol params bl nl dry_run o h pre ev post :
  fst (execute fs env symbol params bl nl dry_run o h) = pre ++ ev :: post ->
  is_later_order ev = true ->
  exists ob1, In (Call (primary_request symbol (size params)) (Returned ob1)) pre.
Proof.
  intros Hsplit Hev.
  assert (Habsurd : forall l, Forall (fun a => is_later_order a = false) l ->
                              l = pre ++ ev :: post -> False).
  { intros l Hl ->. apply Forall_app in Hl as [_ Hl].
    apply Forall_cons in Hl as [Hl _]. congruence. }
  destruct dry_run.
  { exfalso. eapply Habsurd; [|exact Hsplit].
    eapply Forall_impl; [apply execute_dry_run_no_order|]. apply no_order_not_later. }
  destruct (execute_live_shape fs env symbol params bl nl o h)
    as [[Hno _]|[(p0 & e & Hp0 & _ & Htr)|(p0 & ob1 & hs & hist & eh & rh & lev & Hp0 & _ & _ & Hrh)]].
  - exfalso. eapply Habsurd; [|exact Hsplit].
    eapply Forall_impl; [exact Hno|]. apply no_order_not_later.
  - exfalso. eapply Habsurd; [|rewrite <- Hsplit, Htr; reflexivity].
    apply Forall_app. split.
    + eapply Forall_impl; [exact Hp0|]. apply no_order_not_later.
    + destruct (is_ExchangeError e); repeat constructor.
  - assert (Htr : exists rest,
               fst (execute fs env symbol params bl nl false o h)
               = p0 ++ Call (primary_request symbol (size params)) (Returned ob1) :: rest).
    { destruct rh as [ob2|x].
      - destruct Hrh as (hist' & _ & ->). eauto.
      - destruct Hrh as [_ ->]. eauto. }
    destruct Htr as [rest Htr]. rewrite Htr in Hsplit.
    destruct (split_after is_later_order _ _ _ _ _ _ Hsplit) as [mid ->].
    + eapply Forall_impl; [exact Hp0|]. apply no_order_not_later.
    + reflexivity.
    + exact Hev.
    + exists ob1. rewrite in_app_iff. right. left. reflexivity.
Qed.

Lemma orders_follow_primary_witness :
  let run := execute Examples.float_of_str Examples.no_env Examples.symbol
                     Examples.a_plan 20 20 false Examples.calm [] in
  exists ob1,
    In (Call (primary_request Examples.symbol (size Examples.a_plan)) (Returned ob1))
       (take 13 (fst run)).
Proof.
  intros run.
  apply (orders_follow_primary Examples.float_of_str Examples.no_env Examples.symbol
           Examples.a_plan 20 20 false Examples.calm []
           (take 13 (fst run))
           (Call (hedge_request Examples.symbol 9.96)
                 (Returned (Examples.order_info "order-1")))
           (drop 14 (fst run))).
  - vm_compute. reflexivity.
  - reflexivity.
Defined.

Lemma open_hedge_result fs symbol hs o h e ob2 :
  open_hedge fs symbol hs o h = (e, Returned ob2) ->
  ob2 = PNone \/ In (Call (hedge_request symbol hs) (Returned ob2)) e.
Proof.
  unfold open_hedge, recover_hedge, mbind, M_bind, mret, M_ret, call, lift, print,
    try_except, raise.
  intros H. run_cases; auto; right;
    repeat (rewrite in_app_iff || simpl);
    repeat (first [left; congruence | right]).
Qed.

Lemma open_hedge_raised fs symbol hs o h e x :
  open_hedge fs symbol hs o h = (e, Raised x) ->
  e = [Call (hedge_request symbol hs) (Raised x)] /\ is_ExchangeError x = false.
Proof.
  unfold open_hedge, recover_hedge, mbind, M_bind, mret, M_ret, call, lift, print,
    try_except, raise.
  intros H. run_cases; auto.
Qed.

(** The references a live run returns are the venues' own answers:
    [bybit_entry] is what the primary venue returned for the market buy,
    and [binance_entry] is either null or what the hedge venue returned
    for a short market order. *)
Theorem execute_returns_venue_orders fs env symbol params bl nl o h ob1 ob2 :
  let run := execute fs env symbol params bl nl false o h in
  snd run = Returned (Result ob1 ob2) ->
  In (Call (primary_request symbol (size params)) (Returned ob1)) (fst run) /\
  (ob2 = PNone \/
   exists hs, In (Call (hedge_request symbol hs) (Returned ob2)) (fst run)).
Proof.
  intros run. subst run. intros Hres.
  destruct (execute_live_shape fs env symbol params bl nl o h)
    as [[_ [e He]]|[(p0 & e & _ & He & _)|(p0 & o1 & hs & hist & eh & rh & lev & _ & _ & Hopen & Hrh)]];
    try congruence.
  destruct rh as [o2|x]; [|destruct Hrh; congruence].
  destruct Hrh as (hist' & Hsnd & Htr).
  rewrite Hsnd in Hres. injection Hres as -> ->.
  rewrite Htr. split.
  - rewrite in_app_iff. right. left. reflexivity.
  - destruct (open_hedge_result _ _ _ _ _ _ _ Hopen) as [->|Hin]; [left; reflexivity|].
    right. exists hs. rewrite in_app_iff. right. right.
    rewrite in_app_iff. left. exact Hin.
Qed.

Lemma execute_returns_venue_orders_witness :
  let run := execute Examples.float_of_str Examples.no_env Examples.symbol
                     Examples.a_plan 20 20 false Examples.calm [] in
  In (Call (primary_request Examples.symbol (size Examples.a_plan))
           (Returned (Examples.order_info "long-1"))) (fst run) /\
  (Examples.order_info "order-1" = PNone \/
   exists hs, In (Call (hedge_request Examples.symbol hs)
                       (Returned (Examples.order_info "order-1"))) (fst run)).
Proof.
  intros run.
  apply (execute_returns_venue_orders Examples.float_of_str Examples.no_env
           Examples.symbol Examples.a_plan 20 20 Examples.calm []).
  vm_compute. reflexivity.
Defined.

(** Once the primary buy has been accepted, the only way a live run can
    still raise is the first short being refused with an error that is
    not an [ExchangeError] (a network failure, say): the run then ends
    on that call, the long stands unhedged and no bracket was placed. *)
Theorem abort_after_primary fs env symbol params bl nl o h ob1 e :
  let run := execute fs env symbol params bl nl false o h in
  In (Call (primary_request symbol (size params)) (Returned ob1)) (fst run) ->
  snd run = Raised e ->
  is_ExchangeError e = false /\
  exists pre hs,
    fst run = pre ++ [Call (hedge_request symbol hs) (Raised e)] /\
    Forall (fun ev => is_later_order ev = false) pre.
Proof.
  intros run. subst run. intros Hin Hres.
  destruct (execute_live_shape fs env symbol params bl nl o h)
    as [[Hno _]|[(p0 & e' & Hp0 & _ & Htr)|(p0 & o1 & hs & hist & eh & rh & lev & Hp0 & _ & Hopen & Hrh)]].
  - exfalso. absurd_in Hin.
  - exfalso. rewrite Htr in Hin. destruct (is_ExchangeError e');
      split_in Hin; absurd_in Hin.
  - destruct rh as [o2|x].
    + destruct Hrh as (hist' & Hsnd & _). congruence.
    + destruct Hrh as [Hsnd Htr]. rewrite Hsnd in Hres. injection Hres as ->.
      destruct (open_hedge_raised _ _ _ _ _ _ _ Hopen) as [-> Hx].
      split; [exact Hx|].
      exists (p0 ++ [Call (primary_request symbol (size params)) (Returned o1)]), hs.
      split; [rewrite Htr, <- app_assoc; reflexivity|].
      apply Forall_app. split; [|repeat constructor].
      eapply Forall_impl; [exact Hp0|]. apply no_order_not_later.
Qed.

Lemma abort_after_primary_witness :
  let e := Exn NetworkError "connection reset" in
  let o := Examples.answering Examples.sel_hedge (Raised e) Examples.calm in
  let run := execute Examples.float_of_str Examples.no_env Examples.symbol
                     Examples.a_plan 20 20 false o [] in
  is_ExchangeError e = false /\
  exists pre hs,
    fst run = pre ++ [Call (hedge_request Examples.symbol hs) (Raised e)] /\
    Forall (fun ev => is_later_order ev = false) pre.
Proof.
  intros e o run.
  apply (abort_after_primary Examples.float_of_str Examples.no_env Examples.symbol
           Examples.a_plan 20 20 o [] (Examples.order_info "long-1") e).
  - vm_compute. repeat (first [left; reflexivity | right]).
  - vm_compute. reflexivity.
Defined.

(** ** Hedge size and leverage across a run *)

Lemma qmin_le_l (a b : Q) : qmin a b <= a.
Proof.
  unfold qmin. destruct (Qltb b a) eqn:E; [|lra].
  apply Qltb_true in E. lra.
Qed.

Lemma qmin_le_r (a b : Q) : qmin a b <= b.
Proof.
  unfold qmin. destruct (Qltb b a) eqn:E; [lra|].
  apply Qltb_false in E. exact E.
Qed.

Lemma trade_short_side fs env symbol params lev dry_run :
  emits (short_side_within (size params)) (trade fs env symbol params lev dry_run).
Proof.
  unfold trade. simpl.
  apply emits_lift_bind. intros [hs mq] Hsz.
  assert (Hhs : hs <= size params).
  { unfold hedge_sizing in Hsz.
    destruct (Qeq_bool (entry params) 0); [discriminate|].
    injection Hsz as <- _. apply qmin_le_l. }
  clear Hsz.
  unfold dry_run_report, open_primary, open_hedge, recover_hedge, place_brackets,
    place_bracket. simpl.
  emits_walk; intros ? ? ? ? ? ? E Hside;
    unfold hedge_request, close_long_request, primary_request, bybit_sl_request,
      bybit_tp_request, binance_tp_request, binance_sl_request in E;
    simplify_eq; try exact Hhs; simpl in Hside; discriminate.
Qed.

(** Whatever the venues answer, no order on the hedge venue's short
    side - the short, its retry, its two brackets - is larger than the
    primary size. *)
Theorem hedge_never_exceeds_primary fs env symbol params bl nl dry_run o h
        sym type side amt prm r :
  In (Call (CreateOrder Binance sym type side amt prm) r)
     (fst (execute fs env symbol params bl nl dry_run o h)) ->
  assoc "positionSide" prm = Some (PStr "SHORT") ->
  amt <= size params.
Proof.
  intros Hin Hside.
  assert (Hem : emits (short_side_within (size params))
                      (execute fs env symbol params bl nl dry_run)).
  { unfold execute. apply emits_bind.
    - intros o' h'. eapply Forall_impl; [apply negotiate_leverage_no_order|].
      intros ev Hev ? ? ? ? ? ? -> _. discriminate Hev.
    - intros lev. apply trade_short_side. }
  exact (Forall_In _ _ _ (Hem o h) Hin sym type side amt prm r eq_refl Hside).
Qed.

Lemma hedge_never_exceeds_primary_witness :
  let env : environ := {[ "USDT_AMOUNT" := "40" ]} in
  (800 # 100) <= size Examples.a_plan.
Proof.
  intros env.
  apply (hedge_never_exceeds_primary Examples.float_of_str env Examples.symbol
           Examples.a_plan 20 20 false Examples.calm []
           Examples.symbol "TAKE_PROFIT_MARKET" "buy" (800 # 100)
           [("stopPrice", PNum 99); ("positionSide", PStr "SHORT");
            ("closePosition", PBool true)]
           (Returned (Examples.order_info "order-1"))).
  - vm_compute. repeat (first [left; reflexivity | right]).
  - reflexivity.
Defined.



Lemma trade_dry_run_prints fs env symbol params lev :
  emits (fun ev => is_call ev = false) (trade fs env symbol params lev true).
Proof.
  unfold trade, dry_run_report. simpl. emits_walk; reflexivity.
Qed.

(** A dry run talks to the venues exactly as a live run does up to the
    end of the leverage negotiation - same calls, same answers, leverage
    really set - and makes no connector call after it. *)
Theorem dry_run_shares_negotiation fs env symbol params bl nl o h :
  exists after_dry after_live,
    fst (execute fs env symbol params bl nl true o h)
    = fst (negotiate_leverage symbol bl nl o h) ++ after_dry /\
    fst (execute fs env symbol params bl nl false o h)
    = fst (negotiate_leverage symbol bl nl o h) ++ after_live /\
    Forall (fun ev => is_call ev = false) after_dry.
Proof.
  unfold execute. rewrite !bind_run.
  destruct (negotiate_leverage symbol bl nl o h) as [e1 [lev|x]]; simpl.
  - pose proof (trade_dry_run_prints fs env symbol params lev o (h ++ e1)) as Hd.
    destruct (trade fs env symbol params lev true o (h ++ e1)) as [ed rd].
    destruct (trade fs env symbol params lev false o (h ++ e1)) as [el rl].
    exists ed, el. auto.
  - exists [], []. rewrite app_nil_r. auto.
Qed.

Lemma bybit_effective_leverage_capped m_by req max_by lev_by :
  bybit_effective_leverage m_by req = Returned (max_by, lev_by) ->
  lev_by <= req.
Proof.
  unfold bybit_effective_leverage, py_min. intros H.
  destruct (py_index m_by "limits") as [l|]; [|discriminate]. simpl in H.
  destruct (py_get l "leverage" (PDict [])) as [ll|]; [|discriminate]. simpl in H.
  destruct (py_get ll "max" (PNum req)) as [mx|]; [|discriminate]. simpl in H.
  destruct (as_num mx) as [m|]; [|discriminate]. simpl in H.
  injection H as _ <-. apply qmin_le_l.
Qed.

Lemma binance_effective_leverage_capped m_bn req max_bn lev_bn :
  binance_effective_leverage m_bn req = Returned (max_bn, lev_bn) ->
  lev_bn <= req /\ lev_bn <= max_bn.
Proof.
  unfold binance_effective_leverage. intros H.
  destruct (py_get m_bn "limits" (PDict [])) as [l|]; [|discriminate]. simpl in H.
  destruct (py_get l "leverage" PNone) as [ll|]; [|discriminate]. simpl in H.
  destruct (py_get (py_or ll (PDict [])) "max" PNone) as [mx|]; [|discriminate].
  simpl in H.
  destruct (as_num (py_or mx (PNum req))) as [m|]; [|discriminate]. simpl in H.
  injection H as <- <-. split; [apply qmin_le_l|apply qmin_le_r].
Qed.

(** The leverage sent to a venue: the primary venue is only ever asked
    for a value that does not exceed the requested leverage; the hedge
    venue is asked for such a value first, and otherwise only for the
    maximum its market reports. *)
Theorem leverage_requests_capped (symbol : string) (req : Q) (o : oracle)
        (h : list event) :
  (forall l sym r,
      In (Call (SetLeverage Bybit l sym) r) (fst (set_bybit_leverage symbol req o h)) ->
      sym = symbol /\ l <= req) /\
  (forall l sym r,
      In (Call (SetLeverage Binance l sym) r) (fst (set_binance_leverage symbol req o h)) ->
      sym = symbol /\
      exists m_bn max_bn lev_bn,
        o h (Market Binance symbol) = Returned m_bn /\
        binance_effective_leverage m_bn req = Returned (max_bn, lev_bn) /\
        lev_bn <= req /\ lev_bn <= max_bn /\
        (l = lev_bn \/ l = max_bn)).
Proof.
  split.
  - intros l sym r.
    destruct (set_bybit_leverage symbol req o h) as [tr res] eqn:Hrun. simpl.
    unfold set_bybit_leverage, mbind, M_bind, mret, M_ret, call, lift, print,
      try_except, raise in Hrun.
    intros Hin. run_cases; simpl in Hin;
      repeat (destruct Hin as [Hin|Hin]; try discriminate Hin); try contradiction;
      simplify_eq; (split; [reflexivity|]);
      eapply bybit_effective_leverage_capped; eassumption.
  - intros l sym r.
    destruct (set_binance_leverage symbol req o h) as [tr res] eqn:Hrun. simpl.
    unfold set_binance_leverage, mbind, M_bind, mret, M_ret, call, lift, print,
      try_except, raise in Hrun.
    intros Hin. run_cases; simpl in Hin;
      repeat (destruct Hin as [Hin|Hin]; try discriminate Hin); try contradiction;
      simplify_eq; (split; [reflexivity|]);
      match goal with
      | He : binance_effective_leverage ?m req = Returned (?mx, ?lv) |- _ =>
          exists m, mx, lv;
          destruct (binance_effective_leverage_capped _ _ _ _ He);
          auto 10
      end.
Qed.

Lemma leverage_requests_capped_witness :
  Examples.symbol = Examples.symbol /\ 25 <= 50.
Proof.
  apply (proj1 (leverage_requests_capped Examples.symbol 50 Examples.calm [])
           25 Examples.symbol (Returned PNone)).
  vm_compute. auto.
Defined.

(** ** Reading the hedge venue's positions *)

Lemma find_position_skips (symbol : string) (pre rest : list pyval) :
  Forall (other_position symbol) pre ->
  find_position symbol (pre ++ rest) = find_position symbol rest.
Proof.
  induction 1 as [|p pre (kvs & -> & Hne) _ IH]; simpl; [reflexivity|].
  destruct (assoc "symbol" kvs); simpl in *; [rewrite Hne|]; exact IH.
Qed.

(** The position the recovery looks at is the first entry whose symbol
    is the traded one; its exposure is read from [contracts] when the
    entry has that key, else from [positionAmt] (a numeric string is
    converted), else it is 0; entries for other symbols are skipped, and
    with no entry for the symbol the exposure is 0. *)
Theorem exposure_reads_first_match fs (symbol : string) (pre post : list pyval)
        (kvs : list (string * pyval)) :
  Forall (other_position symbol) pre ->
  (exposure fs symbol (Returned (PList pre)) = Returned 0) /\
  (assoc "symbol" kvs = Some (PStr symbol) ->
   find_position symbol (pre ++ PDict kvs :: post) = Returned (Some (PDict kvs)) /\
   (forall v, assoc "contracts" kvs = Some v ->
              exposure fs symbol (Returned (PList (pre ++ PDict kvs :: post)))
              = py_float fs v) /\
   (forall v, assoc "contracts" kvs = None -> assoc "positionAmt" kvs = Some v ->
              exposure fs symbol (Returned (PList (pre ++ PDict kvs :: post)))
              = py_float fs v) /\
   (assoc "contracts" kvs = None -> assoc "positionAmt" kvs = None ->
    exposure fs symbol (Returned (PList (pre ++ PDict kvs :: post))) = Returned 0)).
Proof.
  intros Hpre. split.
  - unfold exposure. simpl.
    rewrite <- (app_nil_r pre), (find_position_skips _ _ _ Hpre). reflexivity.
  - intros Hsym.
    assert (Hfind : find_position symbol (pre ++ PDict kvs :: post)
                    = Returned (Some (PDict kvs))).
    { rewrite (find_position_skips _ _ _ Hpre). simpl. rewrite Hsym. simpl.
      rewrite String.eqb_refl. reflexivity. }
    assert (Htruthy : truthy (PDict kvs) = true)
      by (destruct kvs; [discriminate Hsym|reflexivity]).
    split; [exact Hfind|].
    assert (Hexp : exposure fs symbol (Returned (PList (pre ++ PDict kvs :: post)))
                   = current_contracts fs (Some (PDict kvs))).
    { unfold exposure. cbn [mbind outcome_bind py_iter]. rewrite Hfind. reflexivity. }
    rewrite Hexp. unfold current_contracts. rewrite Htruthy.
    cbv [py_get mbind outcome_bind].
    repeat split.
    + intros v Hc. destruct (assoc "positionAmt" kvs); rewrite Hc; reflexivity.
    + intros v Hc Ha. rewrite Ha, Hc. reflexivity.
    + intros Hc Ha. rewrite Ha, Hc. reflexivity.
Qed.

Lemma exposure_reads_first_match_witness :
  exposure Examples.float_of_str "ALPACA/USDT:USDT"
    (Returned (PList ([PDict [("symbol", PStr "BTC/USDT:USDT"); ("contracts", PNum 3)]]
                      ++ PDict [("symbol", PStr "ALPACA/USDT:USDT");
                                ("positionAmt", PStr "12.50")] :: [])))
  = py_float Examples.float_of_str (PStr "12.50").
Proof.
  refine (proj1 (proj2 (proj2 (proj2
            (exposure_reads_first_match Examples.float_of_str "ALPACA/USDT:USDT"
               [PDict [("symbol", PStr "BTC/USDT:USDT"); ("contracts", PNum 3)]] []
               [("symbol", PStr "ALPACA/USDT:USDT"); ("positionAmt", PStr "12.50")]
               _) _))) (PStr "12.50") _ _).
  - repeat constructor. eexists. split; reflexivity.
  - reflexivity.
  - reflexivity.
  - reflexivity.
Defined.

(** When the hedge venue lists no position for the symbol, the recovery
    after a rejected short is the position query alone: no closing
    order, no retry, a null reference. *)
Theorem recover_hedge_without_position fs symbol hs (ps : list pyval) o h :
  o h (FetchPositions Binance) = Returned (PList ps) ->
  Forall (other_position symbol) ps ->
  recover_hedge fs symbol hs o h
  = ([Call (FetchPositions Binance) (Returned (PList ps))], Returned PNone).
Proof.
  intros Hq Hps.
  unfold recover_hedge, try_except. rewrite bind_run. unfold call at 1.
  rewrite Hq. rewrite bind_run. unfold lift at 1. simpl py_iter. cbv iota beta.
  rewrite bind_run. unfold lift at 1.
  rewrite <- (app_nil_r ps), (find_position_skips _ _ _ Hps). simpl.
  reflexivity.
Qed.

Lemma recover_hedge_without_position_witness :
  recover_hedge Examples.float_of_str Examples.symbol 9.96 Examples.calm []
  = ([Call (FetchPositions Binance) (Returned (PList []))], Returned PNone).
Proof.
  apply (recover_hedge_without_position Examples.float_of_str Examples.symbol 9.96 []).
  - reflexivity.
  - constructor.
Defined.
